(** * InsureAI: credential store, prediction ledger and scenario handlers

    A shallow embedding of [streamlit_app.py]: the SQLite-backed account and
    prediction functions ([create_user], [verify_user], [save_prediction],
    [get_user_predictions]), the "Predict Cost" button handler of the
    predictor tab and the four button handlers of the scenarios tab; then
    the login page, the history tab and the script that runs them, press
    after press, over one session state and one database.

    Python values are a small tagged union; dictionaries live in a heap of
    objects so that [dict.copy()] and item assignment keep their aliasing;
    the handlers run in a state-and-exception monad over the database, the
    heap, the Streamlit session and a log of what was shown and which model
    calls were made. *)

From Stdlib Require Import ZArith QArith String List Lia Lqa Sorted
  Permutation.
From stdpp Require Import gmap strings list.
Import ListNotations.

Local Open Scope string_scope.
Local Open Scope Z_scope.

(** ** Numbers

    A binary floating-point value is abstracted to an extended rational:
    finite values are rationals (rounding and overflow of finite arithmetic
    are not modelled), next to the two infinities and not-a-number, which is
    what decides how comparisons and a division by zero behave. *)

Inductive ieee : Type :=
  | Fin (q : Q)
  | PInf
  | NInf
  | NaN.

Definition Qlt_b (x y : Q) : bool :=
  match (x ?= y)%Q with Lt => true | _ => false end.

Definition Qzero_b (x : Q) : bool :=
  match (x ?= 0)%Q with Eq => true | _ => false end.

(** [a < b] on floats: every comparison with NaN is false. *)
Definition ieee_lt (a b : ieee) : bool :=
  match a, b with
  | NaN, _ | _, NaN => false
  | Fin x, Fin y => Qlt_b x y
  | NInf, NInf => false
  | NInf, _ => true
  | _, NInf => false
  | PInf, _ => false
  | Fin _, PInf => true
  end.

Definition ieee_neg (a : ieee) : ieee :=
  match a with
  | Fin x => Fin (- x)%Q
  | PInf => NInf
  | NInf => PInf
  | NaN => NaN
  end.

Definition ieee_sub (a b : ieee) : ieee :=
  match a, b with
  | NaN, _ | _, NaN => NaN
  | Fin x, Fin y => Fin (x - y)%Q
  | PInf, PInf | NInf, NInf => NaN
  | PInf, _ => PInf
  | NInf, _ => NInf
  | Fin _, PInf => NInf
  | Fin _, NInf => PInf
  end.

(** Sign of a float as the IEEE quotient and product use it: [Some true] is
    positive, [Some false] negative, [None] zero or NaN.  A zero divisor is
    the positive zero: the only zero divisor the handlers meet is the integer
    literal [0]. *)
Definition ieee_sign (a : ieee) : option bool :=
  match a with
  | Fin x => if Qzero_b x then None else Some (Qlt_b 0 x)
  | PInf => Some true
  | NInf => Some false
  | NaN => None
  end.

Definition signed_inf (positive : bool) : ieee :=
  if positive then PInf else NInf.

Definition ieee_mul (a b : ieee) : ieee :=
  match a, b with
  | NaN, _ | _, NaN => NaN
  | Fin x, Fin y => Fin (x * y)%Q
  | _, _ =>
      match ieee_sign a, ieee_sign b with
      | Some sa, Some sb => signed_inf (Bool.eqb sa sb)
      | _, _ => NaN
      end
  end.

(** IEEE division, as numpy scalars perform it: a division by zero is not an
    error but yields NaN for a zero numerator and a signed infinity
    otherwise. *)
Definition ieee_div (a b : ieee) : ieee :=
  match a, b with
  | NaN, _ | _, NaN => NaN
  | Fin x, Fin y =>
      if Qzero_b y then
        match ieee_sign a with
        | Some s => signed_inf s
        | None => NaN
        end
      else Fin (x / y)%Q
  | Fin _, _ => Fin 0
  | _, Fin y =>
      match ieee_sign a with
      | Some s => signed_inf (Bool.eqb s (negb (Qlt_b y 0)))
      | None => NaN
      end
  | _, _ => NaN
  end.

(** ** Python values

    [VFloat] is a Python [float] (what [st.number_input] returns for the BMI),
    [VNp] a numpy floating scalar (an element of the array [model.predict]
    returns).  The two differ in one respect that matters here: a true
    division of Python numbers by zero raises [ZeroDivisionError], the same
    division with a numpy scalar operand returns an IEEE result. *)

Inductive pyval : Type :=
  | VInt (n : Z)
  | VBool (b : bool)
  | VFloat (x : ieee)
  | VNp (x : ieee)
  | VStr (s : string).

Inductive exn : Type :=
  | KeyError
  | ValueError
  | TypeError
  | ZeroDivisionError
  | AttributeError
  | IndexError
  | IntegrityError.

Definition result (A : Type) : Type := (exn + A)%type.

(** [bool] is a subclass of [int]. *)
Definition to_int (v : pyval) : option Z :=
  match v with
  | VInt n => Some n
  | VBool b => Some (if b then 1 else 0)
  | _ => None
  end.

Definition to_ieee (v : pyval) : option ieee :=
  match v with
  | VInt n => Some (Fin (inject_Z n))
  | VBool b => Some (Fin (inject_Z (if b then 1 else 0)))
  | VFloat x | VNp x => Some x
  | VStr _ => None
  end.

Definition is_np (v : pyval) : bool :=
  match v with VNp _ => true | _ => false end.

(** The float type of a mixed operation: numpy wins over Python. *)
Definition float_like (a b : pyval) (x : ieee) : pyval :=
  if is_np a || is_np b then VNp x else VFloat x.

(** [a - b] *)
Definition py_sub (a b : pyval) : result pyval :=
  match to_int a, to_int b with
  | Some x, Some y => inr (VInt (x - y))
  | _, _ =>
      match to_ieee a, to_ieee b with
      | Some x, Some y => inr (float_like a b (ieee_sub x y))
      | _, _ => inl TypeError
      end
  end.

(** [a + b] on numbers (string concatenation does not occur in the handlers). *)
Definition py_add (a b : pyval) : result pyval :=
  match to_int a, to_int b with
  | Some x, Some y => inr (VInt (x + y))
  | _, _ =>
      match to_ieee a, to_ieee b with
      | Some x, Some y => inr (float_like a b (ieee_sub x (ieee_neg y)))
      | _, _ => inl TypeError
      end
  end.

(** [a * b] on numbers. *)
Definition py_mul (a b : pyval) : result pyval :=
  match to_int a, to_int b with
  | Some x, Some y => inr (VInt (x * y))
  | _, _ =>
      match to_ieee a, to_ieee b with
      | Some x, Some y => inr (float_like a b (ieee_mul x y))
      | _, _ => inl TypeError
      end
  end.

(** [a / b]: Python numbers raise on a zero divisor, numpy scalars do not. *)
Definition py_truediv (a b : pyval) : result pyval :=
  match to_ieee a, to_ieee b with
  | Some x, Some y =>
      if is_np a || is_np b then inr (VNp (ieee_div x y))
      else
        match ieee_sign y, y with
        | None, Fin _ => inl ZeroDivisionError
        | _, _ => inr (VFloat (ieee_div x y))
        end
  | _, _ => inl TypeError
  end.

(** [a < b] on numbers.  Only numeric comparisons are modelled: in the
    handlers one operand is always an integer literal, against which a string
    raises [TypeError]. *)
Definition py_lt (a b : pyval) : result bool :=
  match to_ieee a, to_ieee b with
  | Some x, Some y => inr (ieee_lt x y)
  | _, _ => inl TypeError
  end.

(** [max(a, b)] keeps its first argument unless the second is strictly
    greater; [min(a, b)] unless the second is strictly smaller. *)
Definition py_max (a b : pyval) : result pyval :=
  match py_lt a b with
  | inr gt => inr (if gt then b else a)
  | inl e => inl e
  end.

Definition py_min (a b : pyval) : result pyval :=
  match py_lt b a with
  | inr lt => inr (if lt then b else a)
  | inl e => inl e
  end.

(** Truth value of an object, as [if x:] tests it. *)
Definition truthy (v : pyval) : bool :=
  match v with
  | VInt n => negb (Z.eqb n 0)
  | VBool b => b
  | VFloat x | VNp x =>
      match x with Fin q => negb (Qzero_b q) | _ => true end
  | VStr s => negb (String.eqb s "")
  end.

(** [v == "literal"] *)
Definition eq_str (v : pyval) (s : string) : bool :=
  match v with
  | VStr t => String.eqb t s
  | _ => false
  end.

(** ** SHA-256 ([hashlib.sha256]), after FIPS 180-4

    Words are 32-bit integers in [Z] with the wrap-around written out.  A
    Python [str] is represented by the bytes of its UTF-8 encoding, so that
    [password.encode()] is the list of the string's bytes. *)

Module SHA256.

Definition w32 (x : Z) : Z := Z.land x 4294967295.

Definition add32 (x y : Z) : Z := w32 (x + y).

Definition rotr (n x : Z) : Z :=
  Z.lor (Z.shiftr x n) (w32 (Z.shiftl x (32 - n))).

Definition not32 (x : Z) : Z := Z.lxor x 4294967295.

Definition Ch (x y z : Z) : Z :=
  Z.lxor (Z.land x y) (Z.land (not32 x) z).

Definition Maj (x y z : Z) : Z :=
  Z.lxor (Z.lxor (Z.land x y) (Z.land x z)) (Z.land y z).

Definition bsig0 (x : Z) : Z :=
  Z.lxor (Z.lxor (rotr 2 x) (rotr 13 x)) (rotr 22 x).

Definition bsig1 (x : Z) : Z :=
  Z.lxor (Z.lxor (rotr 6 x) (rotr 11 x)) (rotr 25 x).

Definition ssig0 (x : Z) : Z :=
  Z.lxor (Z.lxor (rotr 7 x) (rotr 18 x)) (Z.shiftr x 3).

Definition ssig1 (x : Z) : Z :=
  Z.lxor (Z.lxor (rotr 17 x) (rotr 19 x)) (Z.shiftr x 10).

(** The constants are not tabulated but computed as the standard defines
    them: the first 32 bits of the fractional parts of the cube roots (for
    [K]) and of the square roots (for [H0]) of the first primes. *)
Definition is_prime (n : Z) : bool :=
  forallb (fun d => negb (n mod d =? 0))
          (List.filter (fun d => d * d <=? n)
                       (map Z.of_nat (seq 2 (Z.to_nat n)))).

Definition primes (count : nat) : list Z :=
  firstn count (List.filter is_prime (map Z.of_nat (seq 2 400))).

(** The integer cube root, by bisection between [lo] and [hi]. *)
Fixpoint cube_root (fuel : nat) (lo hi n : Z) : Z :=
  match fuel with
  | O => lo
  | S k =>
      let mid := (lo + hi + 1) / 2 in
      if mid * mid * mid <=? n then cube_root k mid hi n
      else cube_root k lo (mid - 1) n
  end.

Definition frac_cube_root (p : Z) : Z :=
  w32 (cube_root 40 0 (Z.shiftl 1 36) (Z.shiftl p 96)).

Definition frac_square_root (p : Z) : Z :=
  w32 (Z.sqrt (Z.shiftl p 64)).

Definition K : list Z := Eval vm_compute in map frac_cube_root (primes 64).

Definition H0 : list Z := Eval vm_compute in map frac_square_root (primes 8).

(** Padding: a [1] bit, zero bytes up to 56 modulo 64, then the bit length
    as a 64-bit big-endian integer. *)
Fixpoint be_bytes (n : nat) (x : Z) : list Z :=
  match n with
  | O => []
  | S m => be_bytes m (Z.shiftr x 8) ++ [Z.land x 255]
  end.

Definition pad (msg : list Z) : list Z :=
  let len := Z.of_nat (length msg) in
  let zeros := Z.to_nat ((55 - len) mod 64) in
  msg ++ [128] ++ repeat 0 zeros ++ be_bytes 8 (8 * len).

Fixpoint words (fuel : nat) (bs : list Z) : list Z :=
  match fuel, bs with
  | S k, b0 :: b1 :: b2 :: b3 :: rest =>
      (Z.shiftl b0 24 + Z.shiftl b1 16 + Z.shiftl b2 8 + b3)
        :: words k rest
  | _, _ => []
  end.

Fixpoint chunks (fuel : nat) (ws : list Z) : list (list Z) :=
  match fuel, ws with
  | S k, _ :: _ => firstn 16 ws :: chunks k (skipn 16 ws)
  | _, _ => []
  end.

Definition at_ (w : list Z) (i : nat) : Z := nth i w 0.

(** The message schedule: 48 more words after the 16 of the block. *)
Fixpoint schedule (n : nat) (w : list Z) : list Z :=
  match n with
  | O => w
  | S m =>
      let t := length w in
      let x :=
        add32 (add32 (ssig1 (at_ w (t - 2))) (at_ w (t - 7)))
              (add32 (ssig0 (at_ w (t - 15))) (at_ w (t - 16))) in
      schedule m (w ++ [x])
  end.

Definition round (st : list Z) (kw : Z * Z) : list Z :=
  match st with
  | [a; b; c; d; e; f; g; h] =>
      let t1 :=
        add32 (add32 (add32 h (bsig1 e)) (Ch e f g))
              (add32 (fst kw) (snd kw)) in
      let t2 := add32 (bsig0 a) (Maj a b c) in
      [add32 t1 t2; a; b; c; add32 d t1; e; f; g]
  | _ => st
  end.

Fixpoint zip (xs ys : list Z) : list (Z * Z) :=
  match xs, ys with
  | x :: xs', y :: ys' => (x, y) :: zip xs' ys'
  | _, _ => []
  end.

Fixpoint add_all (xs ys : list Z) : list Z :=
  match xs, ys with
  | x :: xs', y :: ys' => add32 x y :: add_all xs' ys'
  | _, _ => []
  end.

Definition compress (h : list Z) (block : list Z) : list Z :=
  add_all h (fold_left round (zip K (schedule 48 block)) h).

Definition digest (msg : list Z) : list Z :=
  let bs := pad msg in
  let ws := words (length bs) bs in
  fold_left compress (chunks (length ws) ws) H0.

Definition hex_digit (x : Z) : Ascii.ascii :=
  Ascii.ascii_of_nat
    (Z.to_nat (if x <? 10 then 48 + x else 87 + x)).

Fixpoint hex_nibbles (n : nat) (x : Z) : string :=
  match n with
  | O => EmptyString
  | S m =>
      String.append (hex_nibbles m (Z.shiftr x 4))
                    (String (hex_digit (Z.land x 15)) EmptyString)
  end.

Definition hexdigest (msg : list Z) : string :=
  fold_right (fun w acc => String.append (hex_nibbles 8 w) acc)
             EmptyString (digest msg).

End SHA256.

(** [password.encode()]: the bytes of the string. *)
Definition encode (s : string) : list Z :=
  map (fun c => Z.of_nat (Ascii.nat_of_ascii c)) (list_ascii_of_string s).

(** [hash_password]: [hashlib.sha256(password.encode()).hexdigest()]. *)
Definition hash_password (password : string) : string :=
  SHA256.hexdigest (encode password).

(** ** The SQLite database

    Two tables, as [init_db] creates them.  Rows are kept in rowid order.
    [created_at] holds [datetime.now()], read as a count of microseconds: the
    text SQLite stores for it orders as the instants do.  The columns of a
    prediction carry the types of the values the one call site passes. *)

Record user_row : Type := {
  u_id : Z;
  u_username : string;
  u_password : string;
  u_created_at : Z
}.

Record prediction_row : Type := {
  p_id : Z;
  p_username : string;
  p_age : Z;
  p_sex : string;
  p_bmi : Q;
  p_children : Z;
  p_smoker : Z;
  p_region : string;
  p_prediction : pyval;
  p_created_at : Z
}.

Record database : Type := {
  users : list user_row;
  predictions : list prediction_row
}.

(** The database [init_db] leaves on a new file: both tables, no rows. *)
Definition init_db : database := {| users := []; predictions := [] |}.

(** [INTEGER PRIMARY KEY]: one more than the largest rowid in the table. *)
Definition next_rowid (ids : list Z) : Z :=
  1 + fold_right Z.max 0 ids.

(** [username TEXT UNIQUE]: the comparison is SQLite's default binary
    collation, an exact, case-sensitive match. *)
Definition username_taken (db : database) (username : string) : bool :=
  existsb (fun r => String.eqb (u_username r) username) (users db).

(** [INSERT INTO users (username, password, created_at) VALUES (?, ?, ?)] *)
Definition insert_user (db : database) (username hashed_pw : string) (now : Z)
  : result database :=
  if username_taken db username then inl IntegrityError
  else
    inr {| users :=
             users db ++
               [ {| u_id := next_rowid (map u_id (users db));
                    u_username := username;
                    u_password := hashed_pw;
                    u_created_at := now |} ];
           predictions := predictions db |}.

(** [create_user]: the insert inside [try], [False] on [IntegrityError]; any
    other exception would propagate, and the insert raises no other. *)
Definition create_user (db : database) (username password : string) (now : Z)
  : bool * database :=
  let hashed_pw := hash_password password in
  match insert_user db username hashed_pw now with
  | inr db' => (true, db')
  | inl _ => (false, db)
  end.

(** [SELECT * FROM users WHERE username=? AND password=?] *)
Definition select_user (db : database) (username hashed_pw : string)
  : list user_row :=
  List.filter
    (fun r => String.eqb (u_username r) username
              && String.eqb (u_password r) hashed_pw)
    (users db).

Definition fetchone {A : Type} (rows : list A) : option A := head rows.

(** [verify_user]: [user is not None]. *)
Definition verify_user (db : database) (username password : string) : bool :=
  let hashed_pw := hash_password password in
  match fetchone (select_user db username hashed_pw) with
  | Some _ => true
  | None => false
  end.

(** A [REAL] column turns an integer into the float of the same value; a
    numpy [float64] is a Python float and is stored as one.  Text is kept as
    it is (no caller passes any). *)
Definition real_affinity (v : pyval) : pyval :=
  match v with
  | VStr s => VStr s
  | _ => match to_ieee v with Some x => VFloat x | None => v end
  end.

(** [save_prediction]: one row appended to [predictions]. *)
Definition save_prediction (db : database) (username : string) (age : Z)
    (sex : string) (bmi : Q) (children : Z) (smoker : Z) (region : string)
    (prediction : pyval) (now : Z) : database :=
  {| users := users db;
     predictions :=
       predictions db ++
         [ {| p_id := next_rowid (map p_id (predictions db));
              p_username := username;
              p_age := age; p_sex := sex; p_bmi := bmi;
              p_children := children; p_smoker := smoker;
              p_region := region;
              p_prediction := real_affinity prediction;
              p_created_at := now |} ] |}.

(** [ORDER BY created_at DESC]: a stable descending sort, rows with equal
    keys staying in rowid order. *)
Fixpoint insert_desc (r : prediction_row) (sorted : list prediction_row)
  : list prediction_row :=
  match sorted with
  | [] => [r]
  | x :: rest =>
      if p_created_at r <? p_created_at x then x :: insert_desc r rest
      else r :: sorted
  end.

Definition order_by_created_at_desc (rows : list prediction_row)
  : list prediction_row :=
  fold_right insert_desc [] rows.

(** The tuple a row of the history query is returned as:
    [age, sex, bmi, children, smoker, region, prediction, created_at]. *)
Definition history_row : Type :=
  (Z * string * Q * Z * Z * string * pyval * Z)%type.

Definition project (r : prediction_row) : history_row :=
  (p_age r, p_sex r, p_bmi r, p_children r, p_smoker r, p_region r,
   p_prediction r, p_created_at r).

(** [get_user_predictions]:
    [SELECT age, ..., created_at FROM predictions WHERE username=?
     ORDER BY created_at DESC], then [fetchall]. *)
Definition get_user_predictions (db : database) (username : string)
  : list history_row :=
  map project
    (order_by_created_at_desc
       (List.filter (fun r => String.eqb (p_username r) username)
                    (predictions db))).

(** ** The world the handlers run in

    Dictionaries are heap objects named by their index; the heap only grows.
    [st.session_state] holds the logged-in user and, once a prediction has
    been made, [last_prediction] and a reference to the [last_formdata]
    dictionary.  The log records, in order, every call of the model and
    every widget a handler shows (values before their formatting, messages
    without their pictographs). *)

Definition loc : Type := nat.

Record session_state : Type := {
  username : string;
  last_prediction : option pyval;
  last_formdata : option loc
}.

Inductive event : Type :=
  | ModelCall (features_scaled : list ieee)
  | ResultCard (prediction : pyval)
  | Metric (label : string) (value : pyval) (delta : option pyval)
  | Success (msg : string)
  | Info (msg : string).

Record world : Type := {
  w_db : database;
  w_heap : list (gmap string pyval);
  w_session : session_state;
  w_log : list event
}.

Definition set_db (db : database) (w : world) : world :=
  {| w_db := db; w_heap := w_heap w;
     w_session := w_session w; w_log := w_log w |}.

Definition set_heap (h : list (gmap string pyval)) (w : world) : world :=
  {| w_db := w_db w; w_heap := h;
     w_session := w_session w; w_log := w_log w |}.

Definition set_session (s : session_state) (w : world) : world :=
  {| w_db := w_db w; w_heap := w_heap w;
     w_session := s; w_log := w_log w |}.

Definition set_log (l : list event) (w : world) : world :=
  {| w_db := w_db w; w_heap := w_heap w;
     w_session := w_session w; w_log := l |}.

(** State and exceptions: a computation returns a value or the exception it
    raised, and the world as it left it. *)
Definition M (A : Type) : Type := world -> result A * world.

#[export] Instance M_ret : MRet M := fun A a w => (inr a, w).

#[export] Instance M_bind : MBind M := fun A B k c w =>
  match c w with
  | (inr a, w') => k a w'
  | (inl e, w') => (inl e, w')
  end.

Definition lift {A : Type} (r : result A) : M A := fun w => (r, w).

Definition raise {A : Type} (e : exn) : M A := fun w => (inl e, w).

Definition emit (ev : event) : M unit :=
  fun w => (inr tt, set_log (w_log w ++ [ev]) w).

(** [st.session_state.last_prediction], [st.session_state.last_formdata] *)
Definition session_last_prediction : M pyval :=
  fun w =>
    match last_prediction (w_session w) with
    | Some v => (inr v, w)
    | None => (inl AttributeError, w)
    end.

Definition session_last_formdata : M loc :=
  fun w =>
    match last_formdata (w_session w) with
    | Some l => (inr l, w)
    | None => (inl AttributeError, w)
    end.

(** A new dictionary object. *)
Definition dict_new (d : gmap string pyval) : M loc :=
  fun w => (inr (length (w_heap w)), set_heap (w_heap w ++ [d]) w).

(** A reference outside the heap cannot arise in Python; the model reads it
    as an attribute error. *)
Definition deref (l : loc) : M (gmap string pyval) :=
  fun w =>
    match w_heap w !! l with
    | Some d => (inr d, w)
    | None => (inl AttributeError, w)
    end.

(** [d.copy()]: a new object with the same items. *)
Definition dict_copy (l : loc) : M loc :=
  d ← deref l; dict_new d.

(** [d[key]] *)
Definition dict_getitem (l : loc) (key : string) : M pyval :=
  d ← deref l;
  match d !! key with
  | Some v => mret v
  | None => raise KeyError
  end.

(** [d[key] = v]: the object is updated in place, for every holder of the
    reference. *)
Definition heap_store (l : loc) (d : gmap string pyval) : M unit :=
  fun w => (inr tt, set_heap (<[l := d]> (w_heap w)) w).

Definition dict_setitem (l : loc) (key : string) (v : pyval) : M unit :=
  d ← deref l; heap_store l (<[key := v]> d).

(** The literal [region_mapping], written out at each of its five uses. *)
Definition region_mapping : gmap string pyval :=
  {[ "northwest" := VInt 0; "northeast" := VInt 1;
     "southwest" := VInt 2; "southeast" := VInt 3 ]}.

(** [mapping[key]] for a dictionary literal. *)
Definition literal_getitem (m : gmap string pyval) (key : pyval) : M pyval :=
  match key with
  | VStr s =>
      match m !! s with
      | Some v => mret v
      | None => raise KeyError
      end
  | _ => raise KeyError
  end.

(** The literal [regions] of the Change Region handler. *)
Definition regions : list string :=
  ["northwest"; "northeast"; "southwest"; "southeast"].

(** [lst.index(x)]: the first position of [x], [ValueError] if there is none. *)
Fixpoint list_index (x : pyval) (lst : list string) : option nat :=
  match lst with
  | [] => None
  | y :: rest =>
      if eq_str x y then Some O
      else option_map S (list_index x rest)
  end.

Definition index_of (x : pyval) (lst : list string) : M nat :=
  match list_index x lst with
  | Some i => mret i
  | None => raise ValueError
  end.

(** [lst[i]] for a list literal. *)
Definition list_getitem (lst : list string) (i : nat) : M pyval :=
  match lst !! i with
  | Some s => mret (VStr s)
  | None => raise IndexError
  end.

Definition session_username : M string :=
  fun w => (inr (username (w_session w)), w).

Definition set_last_prediction (v : pyval) : M unit :=
  fun w =>
    (inr tt,
     set_session {| username := username (w_session w);
                    last_prediction := Some v;
                    last_formdata := last_formdata (w_session w) |} w).

Definition set_last_formdata (l : loc) : M unit :=
  fun w =>
    (inr tt,
     set_session {| username := username (w_session w);
                    last_prediction := last_prediction (w_session w);
                    last_formdata := Some l |} w).

(** The values the widgets of the predictor tab return. *)
Record form : Type := {
  f_age : Z;
  f_sex : string;
  f_bmi : Q;
  f_children : Z;
  f_smoker : bool;
  f_region : string
}.

(** What the widgets allow: the bounds of the number inputs and the options
    of the select boxes. *)
Definition valid_form (f : form) : bool :=
  (18 <=? f_age f) && (f_age f <=? 100)
  && (String.eqb (f_sex f) "male" || String.eqb (f_sex f) "female")
  && negb (Qlt_b (f_bmi f) 10) && negb (Qlt_b 60 (f_bmi f))
  && (0 <=? f_children f) && (f_children f <=? 10)
  && existsb (String.eqb (f_region f))
       ["northeast"; "northwest"; "southeast"; "southwest"].

(** The dictionary stored as [last_formdata]. *)
Definition formdata (f : form) : gmap string pyval :=
  {[ "age" := VInt (f_age f); "sex" := VStr (f_sex f);
     "bmi" := VFloat (Fin (f_bmi f)); "children" := VInt (f_children f);
     "smoker" := VBool (f_smoker f); "region" := VStr (f_region f) ]}.

(** The local variables of a scenario handler when it ends: [change] is
    [savings] or [difference]. *)
Record scenario_locals : Type := {
  modified : loc;
  new_pred : pyval;
  change : pyval;
  pct_change : pyval
}.

Inductive button : Type :=
  | quit_smoking
  | lower_bmi
  | change_region
  | age_factor.

Section Handlers.

(** The artifacts [load_model_and_scaler] returns, as the handlers use
    them: [scaler.transform] on the one-row batch, and the scalar the
    handlers take out of [model.predict]'s result ([[0][0]] for
    [model_type == 'tensorflow'], [[0]] otherwise), a numpy scalar. *)
Variable scaler : list ieee -> list ieee.
Variable model : list ieee -> ieee.

(** [np.array([[...]])] then [scaler.transform]: the entries are
    converted to floats, which fails on text. *)
Fixpoint as_floats (vs : list pyval) : option (list ieee) :=
  match vs with
  | [] => Some []
  | v :: rest =>
      match to_ieee v, as_floats rest with
      | Some x, Some xs => Some (x :: xs)
      | _, _ => None
      end
  end.

Definition scaler_transform (features : list pyval) : M (list ieee) :=
  match as_floats features with
  | Some xs => mret (scaler xs)
  | None => raise ValueError
  end.

Definition model_predict (features_scaled : list ieee) : M pyval :=
  emit (ModelCall features_scaled);;
  mret (VNp (model features_scaled)).

(** The "Predict Cost" button of the predictor tab. *)
Definition predict_cost (now : Z) (f : form) : M unit :=
  let sex_encoded :=
    if String.eqb (f_sex f) "female" then VInt 0 else VInt 1 in
  let smoker_encoded := if f_smoker f then VInt 1 else VInt 0 in
  region_encoded ← literal_getitem region_mapping (VStr (f_region f));
  let features :=
    [VInt (f_age f); sex_encoded; VFloat (Fin (f_bmi f));
     VInt (f_children f); smoker_encoded; region_encoded] in
  features_scaled ← scaler_transform features;
  prediction ← model_predict features_scaled;
  prediction ← lift (py_max (VInt 0) prediction);
  user ← session_username;
  (fun w =>
     (inr tt,
      set_db (save_prediction (w_db w) user (f_age f) (f_sex f) (f_bmi f)
                (f_children f) (if f_smoker f then 1 else 0) (f_region f)
                prediction now) w));;
  emit (ResultCard prediction);;
  set_last_prediction prediction;;
  data ← dict_new (formdata f);
  set_last_formdata data.

(** "Quit Smoking" *)
Definition on_quit_smoking : M (option scenario_locals) :=
  base ← session_last_formdata;
  is_smoker ← dict_getitem base "smoker";
  if truthy is_smoker then
    modified ← dict_copy base;
    dict_setitem modified "smoker" (VBool false);;
    sex ← dict_getitem modified "sex";
    let sex_encoded := if eq_str sex "female" then VInt 0 else VInt 1 in
    age ← dict_getitem modified "age";
    bmi ← dict_getitem modified "bmi";
    children ← dict_getitem modified "children";
    region ← dict_getitem modified "region";
    region_encoded ← literal_getitem region_mapping region;
    let features :=
      [age; sex_encoded; bmi; children; VInt 0; region_encoded] in
    features_scaled ← scaler_transform features;
    new_pred ← model_predict features_scaled;
    last ← session_last_prediction;
    savings ← lift (py_sub last new_pred);
    last ← session_last_prediction;
    quotient ← lift (py_truediv savings last);
    pct_change ← lift (py_mul quotient (VInt 100));
    emit (Metric "Annual Savings" savings (Some pct_change));;
    emit (Metric "New Annual Cost" new_pred None);;
    mret (Some {| modified := modified; new_pred := new_pred;
                  change := savings; pct_change := pct_change |})
  else
    emit (Success "You're already a non-smoker!");;
    mret None.

(** "Lose Weight (BMI -5)" *)
Definition on_lower_bmi : M (option scenario_locals) :=
  base ← session_last_formdata;
  modified ← dict_copy base;
  bmi ← dict_getitem modified "bmi";
  lowered ← lift (py_sub bmi (VInt 5));
  floored ← lift (py_max (VInt 10) lowered);
  dict_setitem modified "bmi" floored;;
  sex ← dict_getitem modified "sex";
  let sex_encoded := if eq_str sex "female" then VInt 0 else VInt 1 in
  is_smoker ← dict_getitem modified "smoker";
  let smoker_encoded := if truthy is_smoker then VInt 1 else VInt 0 in
  age ← dict_getitem modified "age";
  bmi ← dict_getitem modified "bmi";
  children ← dict_getitem modified "children";
  region ← dict_getitem modified "region";
  region_encoded ← literal_getitem region_mapping region;
  let features :=
    [age; sex_encoded; bmi; children; smoker_encoded; region_encoded] in
  features_scaled ← scaler_transform features;
  new_pred ← model_predict features_scaled;
  last ← session_last_prediction;
  savings ← lift (py_sub last new_pred);
  last ← session_last_prediction;
  quotient ← lift (py_truediv savings last);
  pct_change ← lift (py_mul quotient (VInt 100));
  emit (Metric "Annual Savings" savings (Some pct_change));;
  new_bmi ← dict_getitem modified "bmi";
  emit (Metric "New BMI" new_bmi None);;
  mret (Some {| modified := modified; new_pred := new_pred;
                change := savings; pct_change := pct_change |}).

(** "Change Region" *)
Definition on_change_region : M (option scenario_locals) :=
  base ← session_last_formdata;
  modified ← dict_copy base;
  current ← dict_getitem modified "region";
  current_idx ← index_of current regions;
  next ← list_getitem regions ((current_idx + 1) `mod` length regions)%nat;
  dict_setitem modified "region" next;;
  sex ← dict_getitem modified "sex";
  let sex_encoded := if eq_str sex "female" then VInt 0 else VInt 1 in
  is_smoker ← dict_getitem modified "smoker";
  let smoker_encoded := if truthy is_smoker then VInt 1 else VInt 0 in
  age ← dict_getitem modified "age";
  bmi ← dict_getitem modified "bmi";
  children ← dict_getitem modified "children";
  region ← dict_getitem modified "region";
  region_encoded ← literal_getitem region_mapping region;
  let features :=
    [age; sex_encoded; bmi; children; smoker_encoded; region_encoded] in
  features_scaled ← scaler_transform features;
  new_pred ← model_predict features_scaled;
  last ← session_last_prediction;
  difference ← lift (py_sub new_pred last);
  last ← session_last_prediction;
  quotient ← lift (py_truediv difference last);
  pct_change ← lift (py_mul quotient (VInt 100));
  new_region ← dict_getitem modified "region";
  emit (Metric "New Region" new_region None);;
  emit (Metric "Cost Change" difference (Some pct_change));;
  mret (Some {| modified := modified; new_pred := new_pred;
                change := difference; pct_change := pct_change |}).

(** "Project 10 Years" *)
Definition on_age_factor : M (option scenario_locals) :=
  base ← session_last_formdata;
  modified ← dict_copy base;
  age ← dict_getitem modified "age";
  older ← lift (py_add age (VInt 10));
  capped ← lift (py_min (VInt 100) older);
  dict_setitem modified "age" capped;;
  sex ← dict_getitem modified "sex";
  let sex_encoded := if eq_str sex "female" then VInt 0 else VInt 1 in
  is_smoker ← dict_getitem modified "smoker";
  let smoker_encoded := if truthy is_smoker then VInt 1 else VInt 0 in
  age ← dict_getitem modified "age";
  bmi ← dict_getitem modified "bmi";
  children ← dict_getitem modified "children";
  region ← dict_getitem modified "region";
  region_encoded ← literal_getitem region_mapping region;
  let features :=
    [age; sex_encoded; bmi; children; smoker_encoded; region_encoded] in
  features_scaled ← scaler_transform features;
  new_pred ← model_predict features_scaled;
  last ← session_last_prediction;
  difference ← lift (py_sub new_pred last);
  last ← session_last_prediction;
  quotient ← lift (py_truediv difference last);
  pct_change ← lift (py_mul quotient (VInt 100));
  new_age ← dict_getitem modified "age";
  emit (Metric "Age in 10 Years" new_age None);;
  emit (Metric "Projected Cost" new_pred (Some difference));;
  mret (Some {| modified := modified; new_pred := new_pred;
                change := difference; pct_change := pct_change |}).

(** The scenarios tab with one of its buttons pressed. *)
Definition scenarios_tab (clicked : button) : M (option scenario_locals) :=
  fun w =>
    match last_prediction (w_session w) with
    | None =>
        (emit (Info "Make a prediction first in the Predictor tab to run scenarios");;
         mret None) w
    | Some _ =>
        match clicked with
        | quit_smoking => on_quit_smoking w
        | lower_bmi => on_lower_bmi w
        | change_region => on_change_region w
        | age_factor => on_age_factor w
        end
    end.

End Handlers.

(** ** The contract the handlers are compared with

    These definitions follow the words of the specification, not the code:
    the encoding of the Inference Adapter (4.3) and the transform table of
    the Scenario Engine (4.4). *)

Definition spec_sex_code (sex : string) : option Z :=
  if String.eqb sex "female" then Some 0
  else if String.eqb sex "male" then Some 1
  else None.

Definition spec_region_code (region : string) : option Z :=
  if String.eqb region "northwest" then Some 0
  else if String.eqb region "northeast" then Some 1
  else if String.eqb region "southwest" then Some 2
  else if String.eqb region "southeast" then Some 3
  else None.

Definition spec_smoker_code (smoker : bool) : Z :=
  if smoker then 1 else 0.

(** [[age, sex_code, bmi, children, smoker_code, region_code]] *)
Definition spec_features (f : form) : option (list ieee) :=
  match spec_sex_code (f_sex f), spec_region_code (f_region f) with
  | Some s, Some r =>
      Some [Fin (inject_Z (f_age f)); Fin (inject_Z s); Fin (f_bmi f);
            Fin (inject_Z (f_children f));
            Fin (inject_Z (spec_smoker_code (f_smoker f)));
            Fin (inject_Z r)]
  | _, _ => None
  end.

(** northwest -> northeast -> southwest -> southeast -> northwest *)
Definition spec_next_region (region : string) : option string :=
  if String.eqb region "northwest" then Some "northeast"
  else if String.eqb region "northeast" then Some "southwest"
  else if String.eqb region "southwest" then Some "southeast"
  else if String.eqb region "southeast" then Some "northwest"
  else None.

Definition with_region (f : form) (r : string) : form :=
  {| f_age := f_age f; f_sex := f_sex f; f_bmi := f_bmi f;
     f_children := f_children f; f_smoker := f_smoker f; f_region := r |}.

(** [smoker := false], [bmi := max(10, bmi - 5)], the next region,
    [age := min(100, age + 10)]. *)
Definition spec_transform (b : button) (f : form) : option form :=
  match b with
  | quit_smoking =>
      Some {| f_age := f_age f; f_sex := f_sex f; f_bmi := f_bmi f;
              f_children := f_children f; f_smoker := false;
              f_region := f_region f |}
  | lower_bmi =>
      Some {| f_age := f_age f; f_sex := f_sex f;
              f_bmi := if Qlt_b 10 (f_bmi f - 5) then (f_bmi f - 5)%Q else 10%Q;
              f_children := f_children f; f_smoker := f_smoker f;
              f_region := f_region f |}
  | change_region => option_map (with_region f) (spec_next_region (f_region f))
  | age_factor =>
      Some {| f_age := Z.min 100 (f_age f + 10); f_sex := f_sex f;
              f_bmi := f_bmi f; f_children := f_children f;
              f_smoker := f_smoker f; f_region := f_region f |}
  end.

(** ** Observations on values *)

(** [0 <= v], false for NaN and for what is not a number. *)
Definition ieee_nonneg (x : ieee) : bool :=
  match x with
  | Fin q => negb (Qlt_b q 0)
  | PInf => true
  | NInf | NaN => false
  end.

Definition py_nonneg (v : pyval) : bool :=
  match to_ieee v with
  | Some x => ieee_nonneg x
  | None => false
  end.

(** The not-a-number value, the sentinel of an undefined result. *)
Definition is_nan (v : pyval) : bool :=
  match v with
  | VFloat NaN | VNp NaN => true
  | _ => false
  end.

(** What the unguarded quotient by a zero baseline comes to: NaN for a zero
    or NaN numerator, the infinity of the numerator's sign otherwise. *)
Definition zero_quotient (x : ieee) : ieee :=
  match ieee_sign x with
  | Some s => signed_inf s
  | None => NaN
  end.

Definition is_model_call (ev : event) : bool :=
  match ev with ModelCall _ => true | _ => false end.

Definition is_metric (ev : event) : bool :=
  match ev with Metric _ _ _ => true | _ => false end.

(** The next region as the Change Region handler computes it:
    [regions[(regions.index(r) + 1) % len(regions)]]. *)
Definition next_region (r : string) : option string :=
  match list_index (VStr r) regions with
  | Some i => regions !! ((i + 1) `mod` length regions)%nat
  | None => None
  end.

(** The dictionary a handler leaves in [modified]. *)
Definition modified_dict (b : button) (f : form) : gmap string pyval :=
  match b with
  | quit_smoking => <["smoker" := VBool false]> (formdata f)
  | lower_bmi =>
      <["bmi" := if Qlt_b 10 (f_bmi f - 5) then VFloat (Fin (f_bmi f - 5))
                 else VInt 10]> (formdata f)
  | change_region =>
      match next_region (f_region f) with
      | Some r => <["region" := VStr r]> (formdata f)
      | None => formdata f
      end
  | age_factor =>
      <["age" := VInt (if f_age f + 10 <? 100 then f_age f + 10 else 100)]>
        (formdata f)
  end.

(** [savings = last_prediction - new_pred] for the first two scenarios,
    [difference = new_pred - last_prediction] for the other two. *)
Definition delta (b : button) (cost raw : ieee) : ieee :=
  match b with
  | quit_smoking | lower_bmi => ieee_sub cost raw
  | change_region | age_factor => ieee_sub raw cost
  end.

(** The widgets a scenario shows after its model call. *)
Definition shown (b : button) (f : form) (raw change pct : ieee) : list event :=
  match b with
  | quit_smoking =>
      [Metric "Annual Savings" (VNp change) (Some (VNp pct));
       Metric "New Annual Cost" (VNp raw) None]
  | lower_bmi =>
      [Metric "Annual Savings" (VNp change) (Some (VNp pct));
       Metric "New BMI"
         (if Qlt_b 10 (f_bmi f - 5) then VFloat (Fin (f_bmi f - 5))
          else VInt 10) None]
  | change_region =>
      [Metric "New Region"
         (VStr (default (f_region f) (next_region (f_region f)))) None;
       Metric "Cost Change" (VNp change) (Some (VNp pct))]
  | age_factor =>
      [Metric "Age in 10 Years"
         (VInt (if f_age f + 10 <? 100 then f_age f + 10 else 100)) None;
       Metric "Projected Cost" (VNp raw) (Some (VNp change))]
  end.

(** [n] presses of the Change Region button, each on the result of the one
    before. *)
Fixpoint next_region_n (n : nat) (r : string) : option string :=
  match n with
  | O => Some r
  | S k =>
      match next_region r with
      | Some r' => next_region_n k r'
      | None => None
      end
  end.

(** ** A worked instance: a linear model on the unscaled features *)

Definition example_scaler (features : list ieee) : list ieee := features.

Definition example_model (features_scaled : list ieee) : ieee :=
  match features_scaled with
  | [Fin age; Fin sex; Fin bmi; Fin children; Fin smoker; Fin region] =>
      Fin (250 * age + 300 * bmi + 500 * children + 24000 * smoker
           + 400 * region - 12000)%Q
  | _ => NaN
  end.

Definition start_world : world :=
  {| w_db := init_db; w_heap := [];
     w_session := {| username := "alice"; last_prediction := None;
                     last_formdata := None |};
     w_log := [] |}.

Definition smoker_form : form :=
  {| f_age := 18; f_sex := "male"; f_bmi := 20; f_children := 0;
     f_smoker := true; f_region := "southeast" |}.

Definition slim_form : form :=
  {| f_age := 18; f_sex := "female"; f_bmi := 20; f_children := 0;
     f_smoker := false; f_region := "northwest" |}.

(** The session after "Predict Cost" on each form. *)
Definition smoker_world : world :=
  snd (predict_cost example_scaler example_model 1000 smoker_form start_world).

Definition slim_world : world :=
  snd (predict_cost example_scaler example_model 1000 slim_form start_world).

(** A ledger with two records of alice and one of bob. *)
Definition example_ledger : database :=
  save_prediction
    (save_prediction
       (save_prediction init_db "alice" 30 "male" 25 0 0 "northwest"
          (VNp (Fin 4200)) 100)
       "bob" 41 "female" 31 2 1 "southeast" (VNp (Fin 30100)) 150)
    "alice" 31 "male" 26 0 0 "northwest" (VInt 0) 200.

(** ** The login page, the history tab and the script around the tabs *)

(** [len(s)]: the number of characters, which are those bytes of the UTF-8
    encoding that do not continue a character (bit pattern [10xxxxxx]). *)
Definition is_continuation (c : Ascii.ascii) : bool :=
  match c with
  | Ascii.Ascii _ _ _ _ _ _ b6 b7 => b7 && negb b6
  end.

Fixpoint py_len (s : string) : nat :=
  match s with
  | EmptyString => O
  | String c rest =>
      if is_continuation c then py_len rest else S (py_len rest)
  end.

(** [s.capitalize()] on ASCII letters, which is what the select boxes
    store: the first character in upper case, the others in lower case. *)
Definition ascii_upper (c : Ascii.ascii) : Ascii.ascii :=
  let n := Ascii.nat_of_ascii c in
  if ((97 <=? n) && (n <=? 122))%nat then Ascii.ascii_of_nat (n - 32) else c.

Definition ascii_lower (c : Ascii.ascii) : Ascii.ascii :=
  let n := Ascii.nat_of_ascii c in
  if ((65 <=? n) && (n <=? 90))%nat then Ascii.ascii_of_nat (n + 32) else c.

Fixpoint string_lower (s : string) : string :=
  match s with
  | EmptyString => EmptyString
  | String c rest => String (ascii_lower c) (string_lower rest)
  end.

Definition capitalize (s : string) : string :=
  match s with
  | EmptyString => EmptyString
  | String c rest => String (ascii_upper c) (string_lower rest)
  end.

(** A row of the history table: the stored instant (the page shows the
    first ten characters of its text, the date), age, gender, BMI, smoker,
    region and annual cost. *)
Definition table_row : Type :=
  (Z * Z * string * Q * bool * string * pyval)%type.

(** What a run of the script puts on the page. *)
Inductive output : Type :=
  | Shown (ev : event)
  | ShowWarning (msg : string)
  | ShowError (msg : string)
  | HistoryCount (n : nat)
  | Dataframe (rows : list table_row).

(** The session and what it works on.  [a_user] stands for the two session
    fields [logged_in] and [username], which the script only ever assigns
    together: [(False, None)] is [None], [(True, name)] is [Some name]. *)
Record app_state : Type := {
  a_db : database;
  a_heap : list (gmap string pyval);
  a_user : option string;
  a_last_prediction : option pyval;
  a_last_formdata : option loc;
  a_out : list output
}.

Definition initial_state : app_state :=
  {| a_db := init_db; a_heap := []; a_user := None;
     a_last_prediction := None; a_last_formdata := None; a_out := [] |}.

Definition show (o : output) (s : app_state) : app_state :=
  {| a_db := a_db s; a_heap := a_heap s; a_user := a_user s;
     a_last_prediction := a_last_prediction s;
     a_last_formdata := a_last_formdata s; a_out := a_out s ++ [o] |}.

Definition set_user (u : option string) (s : app_state) : app_state :=
  {| a_db := a_db s; a_heap := a_heap s; a_user := u;
     a_last_prediction := a_last_prediction s;
     a_last_formdata := a_last_formdata s; a_out := a_out s |}.

Definition set_database (db : database) (s : app_state) : app_state :=
  {| a_db := db; a_heap := a_heap s; a_user := a_user s;
     a_last_prediction := a_last_prediction s;
     a_last_formdata := a_last_formdata s; a_out := a_out s |}.

(** The database file outlives the session: a session that starts later
    finds the tables as they are ([init_db] creates them only if they do not
    exist) and has a session state of its own. *)
Definition new_session (s : app_state) : app_state :=
  {| a_db := a_db s; a_heap := []; a_user := None;
     a_last_prediction := None; a_last_formdata := None; a_out := [] |}.

(** How a run of the script ends: at its last line, at [st.stop()], at
    [st.rerun()], or with an exception. *)
Inductive outcome : Type :=
  | Completed
  | Stopped
  | Rerun
  | Raised (e : exn).

(** The button pressed in a run, with the values of the widgets it reads. *)
Inductive click : Type :=
  | NoClick
  | LoginClick (login_username login_password : string)
  | SignupClick (signup_username signup_password
                 signup_password_confirm : string)
  | LogoutClick
  | PredictClick (f : form)
  | ScenarioClick (b : button).

(** The Login button of [show_login_page]. *)
Definition on_login (login_username login_password : string) (s : app_state)
  : app_state * outcome :=
  if negb (String.eqb login_username "")
     && negb (String.eqb login_password "") then
    if verify_user (a_db s) login_username login_password then
      (show (Shown (Success "Login successful! Redirecting..."))
         (set_user (Some login_username) s),
       Rerun)
    else (show (ShowError "Invalid username or password") s, Stopped)
  else (show (ShowWarning "Please enter username and password") s, Stopped).

(** The Sign Up button of [show_login_page]. *)
Definition on_signup (signup_username signup_password
    signup_password_confirm : string) (now : Z) (s : app_state)
  : app_state * outcome :=
  if String.eqb signup_username "" || String.eqb signup_password "" then
    (show (ShowWarning "Please fill in all fields") s, Stopped)
  else if negb (String.eqb signup_password signup_password_confirm) then
    (show (ShowError "Passwords don't match") s, Stopped)
  else if (py_len signup_password <? 6)%nat then
    (show (ShowWarning "Password must be at least 6 characters") s, Stopped)
  else
    let (created, db) :=
      create_user (a_db s) signup_username signup_password now in
    if created then
      (show (Shown (Success "Account created! Please login above."))
         (set_database db s),
       Stopped)
    else (show (ShowError "Username already exists") (set_database db s),
          Stopped).

(** [show_login_page], followed by the [st.stop()] of the script. *)
Definition show_login_page (c : click) (now : Z) (s : app_state)
  : app_state * outcome :=
  match c with
  | LoginClick u p => on_login u p s
  | SignupClick u p confirm => on_signup u p confirm now s
  | _ => (s, Stopped)
  end.

(** An f-string with a float format ([:,.2f]): text has no such format. *)
Definition format_float (v : pyval) : result pyval :=
  match v with
  | VStr _ => inl ValueError
  | _ => inr v
  end.

(** The loop that builds [df_data], in the order of the history. *)
Fixpoint table_rows (history : list history_row) : result (list table_row) :=
  match history with
  | [] => inr []
  | (age, sex, bmi, _, smoker, region, prediction, created_at) :: rest =>
      match format_float prediction with
      | inl e => inl e
      | inr cost =>
          match table_rows rest with
          | inl e => inl e
          | inr rows =>
              inr ((created_at, age, capitalize sex, bmi,
                    negb (smoker =? 0), capitalize region, cost) :: rows)
          end
      end
  end.

(** [max(costs)], [min(costs)] and [sum(costs)] on a list with first element
    [first]: the running value is replaced by a strictly greater (smaller)
    element; the sum starts from the integer [0]. *)
Fixpoint py_max_list (best : pyval) (rest : list pyval) : result pyval :=
  match rest with
  | [] => inr best
  | x :: others =>
      match py_max best x with
      | inl e => inl e
      | inr best' => py_max_list best' others
      end
  end.

Fixpoint py_min_list (best : pyval) (rest : list pyval) : result pyval :=
  match rest with
  | [] => inr best
  | x :: others =>
      match py_min best x with
      | inl e => inl e
      | inr best' => py_min_list best' others
      end
  end.

Fixpoint py_sum (acc : pyval) (xs : list pyval) : result pyval :=
  match xs with
  | [] => inr acc
  | x :: others =>
      match py_add acc x with
      | inl e => inl e
      | inr acc' => py_sum acc' others
      end
  end.

Definition cost_of (r : history_row) : pyval := snd (fst r).

(** The statistics under the table: four metrics, each formatted as a
    float. *)
Definition statistics (first : pyval) (rest : list pyval)
  : list output * option exn :=
  match format_float first with
  | inl e => ([], Some e)
  | inr latest =>
      let out1 := [Shown (Metric "Latest Cost" latest None)] in
      match py_max_list first rest with
      | inl e => (out1, Some e)
      | inr highest =>
          let out2 :=
            (out1 ++ [Shown (Metric "Highest Cost" highest None)])%list in
          match py_min_list first rest with
          | inl e => (out2, Some e)
          | inr lowest =>
              let out3 :=
                (out2 ++ [Shown (Metric "Lowest Cost" lowest None)])%list in
              match py_sum (VInt 0) (first :: rest) with
              | inl e => (out3, Some e)
              | inr total =>
                  match py_truediv total
                          (VInt (Z.of_nat (length (first :: rest)))) with
                  | inl e => (out3, Some e)
                  | inr avg_cost =>
                      ((out3 ++
                        [Shown (Metric "Average Cost" avg_cost None)])%list,
                       None)
                  end
              end
          end
      end
  end.

(** The history tab: what it shows, and the exception that ended it if one
    did. *)
Definition history_tab (db : database) (user : string)
  : list output * option exn :=
  match get_user_predictions db user with
  | [] =>
      ([Shown (Info "Make your first prediction in the Predictor tab to see your history here!")],
       None)
  | first :: rest =>
      let out1 := [HistoryCount (length (first :: rest))] in
      match table_rows (first :: rest) with
      | inl e => (out1, Some e)
      | inr rows =>
          let (out2, raised) :=
            statistics (cost_of first) (map cost_of rest) in
          ((out1 ++ [Dataframe rows] ++ out2)%list, raised)
      end
  end.

(** A handler of the tabs run on the session of user [u]. *)
Definition to_world (u : string) (s : app_state) : world :=
  {| w_db := a_db s; w_heap := a_heap s;
     w_session := {| username := u;
                     last_prediction := a_last_prediction s;
                     last_formdata := a_last_formdata s |};
     w_log := [] |}.

Definition of_world (w : world) (s : app_state) : app_state :=
  {| a_db := w_db w; a_heap := w_heap w; a_user := a_user s;
     a_last_prediction := last_prediction (w_session w);
     a_last_formdata := last_formdata (w_session w);
     a_out := a_out s ++ map Shown (w_log w) |}.

Definition run_handler {A : Type} (h : M A) (u : string) (s : app_state)
  : app_state * result A :=
  let (r, w) := h (to_world u s) in (of_world w s, r).

Section Script.

(** What [load_model_and_scaler] returned (cached for the process): the
    scaler and the model, or nothing when loading failed.  As in the
    handlers, the scalar taken from the model's output is a numpy [float64]
    (the pickled regressor); a [float32], as a Keras model gives, is not a
    Python float and is outside this model. *)
Variable artifacts : option ((list ieee -> list ieee) * (list ieee -> ieee)).

(** The tabs of the main page, in the order of the script; an exception in
    one ends the run. *)
Definition tabs (scaler : list ieee -> list ieee) (model : list ieee -> ieee)
    (c : click) (now : Z) (u : string) (s : app_state)
  : app_state * outcome :=
  let (s1, r1) :=
    match c with
    | PredictClick f => run_handler (predict_cost scaler model now f) u s
    | _ => (s, inr tt)
    end in
  match r1 with
  | inl e => (s1, Raised e)
  | inr _ =>
      let (s2, r2) :=
        match c with
        | ScenarioClick b =>
            let (s', r) := run_handler (scenarios_tab scaler model b) u s1 in
            (s', match r with inl e => inl e | inr _ => inr tt end)
        | _ =>
            match a_last_prediction s1 with
            | None =>
                (show (Shown (Info "Make a prediction first in the Predictor tab to run scenarios")) s1,
                 inr tt)
            | Some _ => (s1, inr tt)
            end
        end in
      match r2 with
      | inl e => (s2, Raised e)
      | inr _ =>
          let (shown_rows, raised) := history_tab (a_db s2) u in
          let s3 :=
            {| a_db := a_db s2; a_heap := a_heap s2; a_user := a_user s2;
               a_last_prediction := a_last_prediction s2;
               a_last_formdata := a_last_formdata s2;
               a_out := a_out s2 ++ shown_rows |} in
          match raised with
          | Some e => (s3, Raised e)
          | None => (s3, Completed)
          end
      end
  end.

(** One run of the script. *)
Definition script (c : click) (now : Z) (s : app_state)
  : app_state * outcome :=
  match a_user s with
  | None => show_login_page c now s
  | Some u =>
      match c with
      | LogoutClick =>
          (show (Shown (Success "Logged out successfully!"))
             (set_user None s),
           Rerun)
      | _ =>
          match artifacts with
          | None =>
              (show (ShowError "Model not found. Please train the model first using `python train_model.py`") s,
               Stopped)
          | Some (scaler, model) => tabs scaler model c now u s
          end
      end
  end.

(** A press of a button: the run it starts and, after [st.rerun()], the run
    that follows with no button pressed. *)
Definition interact (c : click) (now : Z) (s : app_state)
  : app_state * outcome :=
  let (s1, o) := script c now s in
  match o with
  | Rerun => script NoClick now s1
  | _ => (s1, o)
  end.

(** The buttons a page offers: the widgets of Predict Cost only return
    values within their bounds and options. *)
Definition offered (c : click) : bool :=
  match c with
  | PredictClick f => valid_form f
  | _ => true
  end.

(** The states of a session under any presses, from the start of a first
    session on new tables or of a later one on the tables as an earlier
    session left them (sessions follow one another: two sessions pressing
    at the same time are not modelled). *)
Inductive reachable : app_state -> Prop :=
  | reachable_start : reachable initial_state
  | reachable_press s c now :
      reachable s -> offered c = true -> reachable (fst (interact c now s))
  | reachable_again s : reachable s -> reachable (new_session s).

End Script.

(** ** Observations on stored values *)

Definition is_hex_char (c : Ascii.ascii) : bool :=
  let n := Ascii.nat_of_ascii c in
  (((48 <=? n) && (n <=? 57)) || ((97 <=? n) && (n <=? 102)))%nat.

Fixpoint all_chars (p : Ascii.ascii -> bool) (s : string) : bool :=
  match s with
  | EmptyString => true
  | String c rest => p c && all_chars p rest
  end.

(** No two accounts with one username, no two rows of a table with one
    rowid. *)
Definition distinct_rows (db : database) : Prop :=
  NoDup (map u_username (users db)) /\
  NoDup (map u_id (users db)) /\
  NoDup (map p_id (predictions db)).

(** The instant of a row of the history. *)
Definition created_at_of (r : history_row) : Z := snd r.

(** The rows of a user in the table, as the history query projects them. *)
Definition stored_for (db : database) (user : string) : list history_row :=
  map project
    (List.filter (fun r => String.eqb (p_username r) user) (predictions db)).

(** The table row of a record whose cost formats. *)
Definition row_of (r : history_row) : table_row :=
  let '(age, sex, bmi, _, smoker, region, prediction, created_at) := r in
  (created_at, age, capitalize sex, bmi, negb (smoker =? 0),
   capitalize region, prediction).

(** The cost is a float, as a [REAL] column returns a number. *)
Definition float_cost (r : history_row) : Prop :=
  exists x, cost_of r = VFloat x.

Definition finite_cost (r : history_row) : Prop :=
  exists q, cost_of r = VFloat (Fin q).

(** The baseline of a session, when there is one, is the dictionary of a
    valid form and a numeric cost. *)
Definition baseline_ok (s : app_state) : Prop :=
  match a_last_prediction s, a_last_formdata s with
  | None, None => True
  | Some cost, Some base =>
      exists f c, valid_form f = true /\
                  a_heap s !! base = Some (formdata f) /\
                  to_ieee cost = Some c
  | _, _ => False
  end.

(** A stored cost is a float that is not negative. *)
Definition cost_ok (r : prediction_row) : Prop :=
  exists x, p_prediction r = VFloat x /\ ieee_nonneg x = true.

(** What holds of a session and its database between runs. *)
Definition consistent (s : app_state) : Prop :=
  distinct_rows (a_db s) /\
  Forall cost_ok (predictions (a_db s)) /\
  Forall (fun r => username_taken (a_db s) (p_username r) = true)
         (predictions (a_db s)) /\
  (forall u, a_user s = Some u -> username_taken (a_db s) u = true) /\
  baseline_ok s.

(** The figures a scenario run ends with, if it computes any. *)
Definition figures (r : result (option scenario_locals))
  : option (pyval * pyval * pyval) :=
  match r with
  | inr (Some l) => Some (new_pred l, change l, pct_change l)
  | _ => None
  end.

(** The entry of the profile a scenario replaces. *)
Definition key_of (b : button) : string :=
  match b with
  | quit_smoking => "smoker"
  | lower_bmi => "bmi"
  | change_region => "region"
  | age_factor => "age"
  end.

(** A session in which alice has signed up and logged in, with the worked
    model loaded. *)
Definition example_artifacts
  : option ((list ieee -> list ieee) * (list ieee -> ieee)) :=
  Some (example_scaler, example_model).

Definition signed_up : app_state :=
  fst (interact example_artifacts (SignupClick "alice" "secret1" "secret1")
         10 initial_state).

Definition logged_in : app_state :=
  fst (interact example_artifacts (LoginClick "alice" "secret1") 20
         signed_up).

Definition predicted : app_state :=
  fst (interact example_artifacts (PredictClick smoker_form) 30 logged_in).

(** The same session when bob has an account too. *)
Definition shared_session : app_state :=
  fst (interact example_artifacts (PredictClick smoker_form) 30
         (fst (interact example_artifacts (LoginClick "alice" "secret1") 20
                 (fst (interact example_artifacts
                         (SignupClick "bob" "hunter22" "hunter22") 15
                         signed_up))))).

(** What a press leaves of a session [s] in the session [s'] after it, by
    the button: the baseline unless it is Predict Cost, the user unless it
    is Login or Logout, and the dictionaries there are. *)
Definition kept (c : click) (s s' : app_state) : Prop :=
  ((forall f, c <> PredictClick f) ->
   a_last_prediction s' = a_last_prediction s /\
   a_last_formdata s' = a_last_formdata s) /\
  ((forall u p, c <> LoginClick u p) -> c <> LogoutClick ->
   a_user s' = a_user s) /\
  (forall l d, a_heap s !! l = Some d -> a_heap s' !! l = Some d).

(** What a press at time [now] adds to the tables: at most one account, by
    Sign Up on the login page, under the name typed and with the hash of
    the password typed; at most one record, by Predict Cost, under the name
    of the user logged in. *)
Definition grown (c : click) (now : Z) (s s' : app_state) : Prop :=
  exists new_users new_records,
    users (a_db s') = (users (a_db s) ++ new_users)%list /\
    predictions (a_db s') = (predictions (a_db s) ++ new_records)%list /\
    (length new_users <= 1)%nat /\
    (length new_records <= 1)%nat /\
    (forall r, In r new_users ->
       a_user s = None /\
       u_created_at r = now /\
       exists p, c = SignupClick (u_username r) p p /\
                 u_password r = hash_password p /\
                 (6 <= py_len p)%nat) /\
    (forall r, In r new_records ->
       a_user s = Some (p_username r) /\
       p_created_at r = now /\
       exists f, c = PredictClick f /\
                 p_age r = f_age f /\ p_sex r = f_sex f /\
                 p_bmi r = f_bmi f /\ p_children r = f_children f /\
                 p_smoker r = (if f_smoker f then 1 else 0) /\
                 p_region r = f_region f).

(** * Proofs *)

(** ** Credential store *)

(** The digest agrees with the standard's test vector and with [hashlib]. *)
Example hash_password_abc :
  hash_password "abc"
  = "ba7816bf8f01cfea414140de5dae2223b00361a396177a9cb410ff61f20015ad".
Proof. vm_compute. reflexivity. Qed.

Lemma existsb_snoc {A} (p : A -> bool) (l : list A) (x : A) :
  existsb p (l ++ [x])%list = existsb p l || p x.
Proof. rewrite existsb_app. cbn. rewrite orb_false_r. reflexivity. Qed.


Lemma create_user_true db u p now db' :
  create_user db u p now = (true, db') ->
  username_taken db u = false /\
  exists row,
    users db' = (users db ++ [row])%list /\
    predictions db' = predictions db /\
    u_username row = u /\ u_password row = hash_password p /\
    u_created_at row = now.
Proof.
  unfold create_user, insert_user.
  destruct (username_taken db u); intros H; inversion H; subst; clear H.
  split; [reflexivity|]. eexists. cbn. repeat split; reflexivity.
Qed.






(** The match is case-sensitive: "Alice" is free after "alice" is taken. *)
Example username_case_sensitive :
  fst (create_user (snd (create_user init_db "alice" "secret1" 0))
                   "Alice" "secret1" 1) = true.
Proof. vm_compute. reflexivity. Qed.

(** The stored password is the digest, never the text given. *)
Example stored_password_is_digest :
  map u_password (users (snd (create_user init_db "alice" "secret1" 0)))
  = ["5b11618c2e44027877d0cd0921ed166b9f176f50587fc91e7534dd2946db77d6"].
Proof. vm_compute. reflexivity. Qed.

(** ** Prediction ledger *)






(** The order is by [created_at], not by insertion: a record saved while the
    clock reads an earlier time than a stored record does not come first. *)
Example clock_set_back_not_first :
  map (fun t => snd t)
    (get_user_predictions
       (save_prediction example_ledger "alice" 32 "male" 27 1 0 "northeast"
          (VFloat (Fin 5100)) 120) "alice")
  = [200; 120; 100].
Proof. vm_compute. reflexivity. Qed.

(** ** Running the monad: the equations the proofs step with *)

Lemma heap_alloc_lookup (h : list (gmap string pyval)) d :
  ((h ++ [d])%list) !! length h = Some d.
Proof. rewrite lookup_app_r by lia. rewrite Nat.sub_diag. reflexivity. Qed.

Lemma heap_alloc_store (h : list (gmap string pyval)) d d' :
  <[length h := d']> ((h ++ [d])%list) = (h ++ [d'])%list.
Proof. rewrite insert_app_r_alt by lia. rewrite Nat.sub_diag. reflexivity. Qed.

Lemma heap_alloc_old (h : list (gmap string pyval)) d l x :
  h !! l = Some x -> ((h ++ [d])%list) !! l = Some x.
Proof. intros H. rewrite lookup_app_l; [exact H | eapply lookup_lt_Some; eauto]. Qed.

Lemma formdata_age f : formdata f !! "age" = Some (VInt (f_age f)).
Proof. destruct f; vm_compute; reflexivity. Qed.

Lemma formdata_sex f : formdata f !! "sex" = Some (VStr (f_sex f)).
Proof. destruct f; vm_compute; reflexivity. Qed.

Lemma formdata_bmi f : formdata f !! "bmi" = Some (VFloat (Fin (f_bmi f))).
Proof. destruct f; vm_compute; reflexivity. Qed.

Lemma formdata_children f :
  formdata f !! "children" = Some (VInt (f_children f)).
Proof. destruct f; vm_compute; reflexivity. Qed.

Lemma formdata_smoker f : formdata f !! "smoker" = Some (VBool (f_smoker f)).
Proof. destruct f; vm_compute; reflexivity. Qed.

Lemma formdata_region f : formdata f !! "region" = Some (VStr (f_region f)).
Proof. destruct f; vm_compute; reflexivity. Qed.

Lemma py_sub_np_r a x y :
  to_ieee a = Some x -> py_sub a (VNp y) = inr (VNp (ieee_sub x y)).
Proof. destruct a; cbn; intros H; inversion H; subst; reflexivity. Qed.

Lemma py_sub_np_l a x y :
  to_ieee a = Some x -> py_sub (VNp y) a = inr (VNp (ieee_sub y x)).
Proof. destruct a; cbn; intros H; inversion H; subst; reflexivity. Qed.

Lemma py_truediv_np_l a x y :
  to_ieee a = Some x -> py_truediv (VNp y) a = inr (VNp (ieee_div y x)).
Proof. destruct a; cbn; intros H; inversion H; subst; reflexivity. Qed.

Lemma to_ieee_if (b : bool) x y :
  to_ieee (if b then VInt x else VInt y)
  = Some (Fin (inject_Z (if b then x else y))).
Proof. destruct b; reflexivity. Qed.

Lemma Qlt_b_inject_Z a b : Qlt_b (a # 1) (b # 1) = (a <? b).
Proof.
  unfold Qlt_b, Qcompare, Z.ltb. cbn [Qnum Qden].
  rewrite !Z.mul_1_r. reflexivity.
Qed.

(** What [valid_form] says about the two select boxes. *)
Lemma valid_sex f :
  valid_form f = true -> f_sex f = "male" \/ f_sex f = "female".
Proof.
  unfold valid_form. intros H.
  rewrite !andb_true_iff in H.
  destruct H as [[[[[[[_ _] H] _] _] _] _] _].
  apply orb_prop in H as [H|H]; apply String.eqb_eq in H; auto.
Qed.

Lemma valid_region f :
  valid_form f = true ->
  f_region f = "northeast" \/ f_region f = "northwest" \/
  f_region f = "southeast" \/ f_region f = "southwest".
Proof.
  unfold valid_form. intros H.
  apply andb_prop in H as [_ H]. cbn in H.
  repeat (apply orb_prop in H as [H|H]; [apply String.eqb_eq in H; auto|]).
  discriminate.
Qed.

Lemma valid_form_codes f :
  valid_form f = true ->
  spec_sex_code (f_sex f)
    = Some (if String.eqb (f_sex f) "female" then 0 else 1) /\
  exists rc, spec_region_code (f_region f) = Some rc /\
             region_mapping !! f_region f = Some (VInt rc).
Proof.
  intros Hv. split.
  - destruct (valid_sex f Hv) as [-> | ->]; reflexivity.
  - destruct (valid_region f Hv) as [ -> | [ -> | [ -> | -> ]]];
      eexists; split; reflexivity.
Qed.

Ltac exec_unfold :=
  unfold scenarios_tab, on_quit_smoking, on_lower_bmi, on_change_region,
    on_age_factor, predict_cost, session_last_formdata,
    session_last_prediction, session_username, set_last_prediction,
    set_last_formdata, dict_getitem, dict_copy, dict_setitem, deref,
    dict_new, heap_store, literal_getitem, index_of, list_getitem,
    scaler_transform, model_predict, lift, emit, raise,
    mbind, M_bind, mret, M_ret.

Ltac dict_lookup :=
  first
    [ rewrite lookup_insert_eq
    | rewrite lookup_insert_ne by discriminate
    | rewrite formdata_age | rewrite formdata_sex | rewrite formdata_bmi
    | rewrite formdata_children | rewrite formdata_smoker
    | rewrite formdata_region ].

Ltac exec_step :=
  first
    [ rewrite heap_alloc_store
    | rewrite heap_alloc_lookup
    | match goal with
      | H : ?h !! ?b = Some _ |- context [?h !! ?b] => rewrite H
      | H : to_ieee ?a = Some _ |- context [to_ieee ?a] => rewrite H
      | H : to_ieee ?a = Some _ |- context [py_sub ?a (VNp ?y)] =>
          rewrite (py_sub_np_r a _ y H)
      | H : to_ieee ?a = Some _ |- context [py_sub (VNp ?y) ?a] =>
          rewrite (py_sub_np_l a _ y H)
      | H : to_ieee ?a = Some _ |- context [py_truediv (VNp ?y) ?a] =>
          rewrite (py_truediv_np_l a _ y H)
      end
    | dict_lookup
    | rewrite to_ieee_if
    | match goal with
      | |- context [region_mapping !! (String ?a ?k)] =>
          let r := eval vm_compute in (region_mapping !! (String a k)) in
          change (region_mapping !! (String a k)) with r
      end ].

Ltac exec := exec_unfold; cbn; repeat (exec_step; cbn).

Section HandlerRuns.

Variable scaler : list ieee -> list ieee.
Variable model : list ieee -> ieee.

#[local] Opaque formdata Qminus Qplus Qmult Qdiv Qcompare Z.add Z.ltb Z.sub.

(** A scenario on a baseline left by a prediction: the handler ends
    normally, having called the model once on the contract's encoding of
    the transformed profile, with the raw model output as [new_pred]. *)
Lemma scenario_run b w base f cost c f' feats :
  valid_form f = true ->
  last_formdata (w_session w) = Some base ->
  w_heap w !! base = Some (formdata f) ->
  last_prediction (w_session w) = Some cost ->
  to_ieee cost = Some c ->
  (b = quit_smoking -> f_smoker f = true) ->
  spec_transform b f = Some f' ->
  spec_features f' = Some feats ->
  let raw := model (scaler feats) in
  let ch := delta b c raw in
  let pct := ieee_mul (ieee_div ch c) (Fin 100) in
  scenarios_tab scaler model b w =
    (inr (Some {| modified := length (w_heap w); new_pred := VNp raw;
                  change := VNp ch; pct_change := VNp pct |}),
     set_log (w_log w ++ ModelCall (scaler feats) :: shown b f raw ch pct)%list
       (set_heap (w_heap w ++ [modified_dict b f])%list w)).
Proof.
  intros Hv Hb Hh Hp Hc Hs Ht Hf.
  destruct (valid_form_codes f Hv) as (Hsc & rc & Hrc & Hmap).
  pose proof (valid_region f Hv) as Hr.
  destruct w as [db heap [user lp lf] log]. cbn in Hb, Hh, Hp. subst lp lf.
  destruct f as [age sex bmi children smoker region].
  cbn in Hr, Hsc, Hrc, Hmap.
  destruct b.
  - specialize (Hs eq_refl). cbn in Hs. subst smoker.
    cbn in Ht. inversion Ht; subst f'; clear Ht.
    unfold spec_features in Hf; cbn in Hf; rewrite Hsc, Hrc in Hf.
    inversion Hf; subst feats; clear Hf.
    exec.
    rewrite <- ?app_assoc; reflexivity.
  - clear Hs. cbn in Ht. inversion Ht; subst f'; clear Ht.
    unfold spec_features in Hf; cbn in Hf; rewrite Hsc, Hrc in Hf.
    inversion Hf; subst feats; clear Hf.
    exec.
    unfold inject_Z; destruct (Qlt_b 10 (bmi - 5)) eqn:E; cbn.
    all: repeat (exec_step; cbn).
    all: rewrite <- ?app_assoc; reflexivity.
  - clear Hs Hmap Hrc.
    destruct Hr as [ -> | [ -> | [ -> | -> ]]].
    all: cbn in Ht; inversion Ht; subst f'; clear Ht.
    all: unfold spec_features in Hf; cbn in Hf; rewrite Hsc in Hf.
    all: inversion Hf; subst feats; clear Hf.
    all: exec.
    all: rewrite <- ?app_assoc; reflexivity.
  - clear Hs. cbn in Ht. inversion Ht; subst f'; clear Ht.
    unfold spec_features in Hf; cbn in Hf; rewrite Hsc, Hrc in Hf.
    inversion Hf; subst feats; clear Hf.
    exec.
    unfold inject_Z; rewrite Qlt_b_inject_Z.
    destruct (age + 10 <? 100) eqn:E; cbn.
    all: first [ rewrite Z.min_r by (apply Z.ltb_lt in E; lia)
               | rewrite Z.min_l by (apply Z.ltb_ge in E; lia) ].
    all: repeat (exec_step; cbn).
    all: rewrite <- ?app_assoc; reflexivity.
Qed.

(** Quit Smoking on a baseline whose [smoker] entry is false: nothing but
    the message. *)
Lemma quit_smoking_no_change w base d v cost :
  last_prediction (w_session w) = Some cost ->
  last_formdata (w_session w) = Some base ->
  w_heap w !! base = Some d ->
  d !! "smoker" = Some v ->
  truthy v = false ->
  scenarios_tab scaler model quit_smoking w =
    (inr None,
     set_log (w_log w ++ [Success "You're already a non-smoker!"])%list w).
Proof.
  intros Hp Hb Hh Hd Ht.
  destruct w as [db heap [user lp lf] log]. cbn in Hp, Hb, Hh. subst lp lf.
  exec. rewrite Ht. reflexivity.
Qed.

(** The Predict Cost handler on the values of a valid form. *)
Lemma predict_cost_run now f w feats :
  valid_form f = true ->
  spec_features f = Some feats ->
  let raw := model (scaler feats) in
  let prediction := if ieee_lt (Fin 0) raw then VNp raw else VInt 0 in
  predict_cost scaler model now f w =
    (inr tt,
     {| w_db :=
          save_prediction (w_db w) (username (w_session w)) (f_age f)
            (f_sex f) (f_bmi f) (f_children f)
            (if f_smoker f then 1 else 0) (f_region f) prediction now;
        w_heap := (w_heap w ++ [formdata f])%list;
        w_session :=
          {| username := username (w_session w);
             last_prediction := Some prediction;
             last_formdata := Some (length (w_heap w)) |};
        w_log :=
          (w_log w ++ [ModelCall (scaler feats); ResultCard prediction])%list
     |}).
Proof.
  intros Hv Hf.
  destruct (valid_form_codes f Hv) as (Hsc & rc & Hrc & Hmap).
  destruct w as [db heap [user lp lf] log].
  destruct f as [age sex bmi children smoker region].
  cbn in Hsc, Hrc, Hmap.
  unfold spec_features in Hf; cbn in Hf; rewrite Hsc, Hrc in Hf.
  inversion Hf; subst feats; clear Hf.
  exec.
  unfold spec_smoker_code.
  rewrite <- ?app_assoc. reflexivity.
Qed.

End HandlerRuns.

(** The transforms of the contract are defined on every valid form, stay
    within the widget ranges, and have an encoding. *)
Lemma spec_transform_valid b f :
  valid_form f = true ->
  exists f' feats,
    spec_transform b f = Some f' /\ valid_form f' = true /\
    spec_features f' = Some feats.
Proof.
  intros Hv.
  assert (Henc : forall g, valid_form g = true ->
                           exists feats, spec_features g = Some feats).
  { intros g Hg. destruct (valid_form_codes g Hg) as (Hs & rc & Hr & _).
    unfold spec_features. rewrite Hs, Hr. eauto. }
  assert (Hgoal : exists f', spec_transform b f = Some f' /\
                             valid_form f' = true).
  { pose proof (valid_region f Hv) as Hr.
    destruct f as [age sex bmi children smoker region].
    unfold valid_form in Hv. cbn [f_age f_sex f_bmi f_children f_region] in Hv.
    cbn in Hr.
    rewrite !andb_true_iff in Hv.
    destruct Hv as [[[[[[[Ha1 Ha2] Hx] Hb1] Hb2] Hc1] Hc2] Hrg].
    destruct b; cbn [spec_transform f_age f_sex f_bmi f_children f_smoker
                     f_region].
    - eexists; split; [reflexivity|].
      unfold valid_form; cbn [f_age f_sex f_bmi f_children f_region].
      rewrite Ha1, Ha2, Hx, Hb1, Hb2, Hc1, Hc2, Hrg. reflexivity.
    - eexists; split; [reflexivity|].
      unfold valid_form; cbn [f_age f_sex f_bmi f_children f_region].
      rewrite Ha1, Ha2, Hx, Hc1, Hc2, Hrg. cbn [andb].
      rewrite !andb_true_r.
      apply negb_true_iff in Hb2.
      destruct (Qlt_b 10 (bmi - 5)) eqn:E.
      + apply andb_true_iff; split; apply negb_true_iff.
        * unfold Qlt_b in *.
          destruct (bmi - 5 ?= 10)%Q eqn:C; try reflexivity.
          rewrite <- Qlt_alt in C.
          destruct (10 ?= bmi - 5)%Q eqn:C'; try discriminate.
          rewrite <- Qlt_alt in C'.
          exfalso. apply (Qlt_irrefl 10). eapply Qlt_trans; eauto.
        * unfold Qlt_b in *.
          destruct (60 ?= bmi - 5)%Q eqn:C; try reflexivity.
          rewrite <- Qlt_alt in C.
          destruct (60 ?= bmi)%Q eqn:C'; try discriminate.
          -- rewrite <- Qeq_alt in C'. exfalso.
             rewrite <- C' in C. revert C. vm_compute. discriminate.
          -- rewrite <- Qgt_alt in C'. exfalso.
             apply (Qlt_irrefl bmi). eapply Qlt_trans; [exact C'|].
             eapply Qlt_trans; [exact C|].
             rewrite <- (Qplus_0_r bmi) at 2.
             unfold Qminus. apply Qplus_lt_r. reflexivity.
      + reflexivity.
    - destruct Hr as [ -> | [ -> | [ -> | -> ]]];
        (eexists; split; [reflexivity|]);
        unfold valid_form, with_region;
        cbn [f_age f_sex f_bmi f_children f_region];
        rewrite Ha1, Ha2, Hx, Hb1, Hb2, Hc1, Hc2; reflexivity.
    - eexists; split; [reflexivity|].
      unfold valid_form; cbn [f_age f_sex f_bmi f_children f_region].
      rewrite Hx, Hb1, Hb2, Hc1, Hc2, Hrg. cbn [andb].
      rewrite !andb_true_r.
      apply Z.leb_le in Ha1, Ha2.
      apply andb_true_iff; split; apply Z.leb_le; lia. }
  destruct Hgoal as (f' & Ht & Hv').
  destruct (Henc f' Hv') as (feats & Hf).
  exists f', feats. auto.
Qed.

(** ** The predictor tab *)

Lemma clamp_nonneg raw :
  py_nonneg (if ieee_lt (Fin 0) raw then VNp raw else VInt 0) = true.
Proof.
  destruct raw as [q| | |]; try reflexivity.
  unfold ieee_lt, Qlt_b. destruct (0 ?= q)%Q eqn:C; try reflexivity.
  unfold py_nonneg, to_ieee, ieee_nonneg, Qlt_b.
  rewrite <- (Qcompare_antisym 0 q), C. reflexivity.
Qed.

Lemma py_max_zero raw :
  py_max (VInt 0) (VNp raw)
  = inr (if ieee_lt (Fin 0) raw then VNp raw else VInt 0).
Proof. reflexivity. Qed.

(** A clamped prediction that is zero is the integer literal [0]. *)
Lemma clamp_zero_is_int raw q :
  to_ieee (if ieee_lt (Fin 0) raw then VNp raw else VInt 0) = Some (Fin q) ->
  Qzero_b q = true ->
  (if ieee_lt (Fin 0) raw then VNp raw else VInt 0) = VInt 0.
Proof.
  destruct raw as [x| | |]; try (intros; reflexivity); try discriminate.
  unfold ieee_lt, Qlt_b, Qzero_b.
  destruct (0 ?= x)%Q eqn:C; try (intros; reflexivity).
  unfold to_ieee. intros H; inversion H; subst q.
  rewrite <- (Qcompare_antisym 0 x), C. discriminate.
Qed.

(** After "Predict Cost" the session holds a baseline: the form's
    dictionary and a numeric cost. *)
Lemma predict_cost_baseline scaler model now f w :
  valid_form f = true ->
  exists w' cost c,
    predict_cost scaler model now f w = (inr tt, w') /\
    last_formdata (w_session w') = Some (length (w_heap w)) /\
    w_heap w' !! length (w_heap w) = Some (formdata f) /\
    last_prediction (w_session w') = Some cost /\
    to_ieee cost = Some c.
Proof.
  intros Hv.
  destruct (valid_form_codes f Hv) as (Hs & rc & Hr & _).
  assert (Hf : exists feats, spec_features f = Some feats)
    by (unfold spec_features; rewrite Hs, Hr; eauto).
  destruct Hf as (feats & Hf).
  exists (snd (predict_cost scaler model now f w)).
  eexists _, (if ieee_lt (Fin 0) (model (scaler feats))
              then model (scaler feats) else Fin (inject_Z 0)).
  rewrite (predict_cost_run scaler model now f w feats Hv Hf).
  cbn [snd w_session w_heap last_formdata last_prediction].
  split; [reflexivity|].
  split; [reflexivity|]. split; [apply heap_alloc_lookup|].
  split; [reflexivity|].
  destruct (ieee_lt (Fin 0) (model (scaler feats))); reflexivity.
Qed.



(** The raw output for [slim_form] is negative and is stored as zero. *)
Example slim_prediction_clamped :
  example_model [Fin 18; Fin 0; Fin 20; Fin 0; Fin 0; Fin 0] = Fin (-1500) /\
  last_prediction (w_session slim_world) = Some (VInt 0) /\
  map p_prediction (predictions (w_db slim_world)) = [VFloat (Fin 0)].
Proof. vm_compute. repeat split. Qed.

(** ** The scenarios tab *)

Lemma zero_quotient_percent x :
  ieee_mul (ieee_div x (Fin (inject_Z 0))) (Fin 100) = zero_quotient x.
Proof.
  destruct x as [q| | |]; try reflexivity.
  unfold zero_quotient, ieee_div, ieee_sign.
  change (Qzero_b (inject_Z 0)) with true. cbv iota.
  destruct (Qzero_b q); [reflexivity|].
  destruct (Qlt_b 0 q); reflexivity.
Qed.

Lemma shown_model_calls b f raw ch pct :
  List.filter is_model_call (shown b f raw ch pct) = [].
Proof. destruct b; reflexivity. Qed.

Ltac in_list := cbn; repeat (first [left; reflexivity | right]).

(** The claim of C2 fails: on the zero baseline of [slim_world] the Lose
    Weight handler shows a saving of 3000 with a percent-change of plus
    infinity, which is not the not-a-number sentinel. *)
Lemma zero_baseline_percent_infinite :
  last_prediction (w_session slim_world) = Some (VInt 0) /\
  exists locals w',
    scenarios_tab example_scaler example_model lower_bmi slim_world
      = (inr (Some locals), w') /\
    change locals = VNp (Fin 3000) /\
    pct_change locals = VNp PInf /\
    is_nan (pct_change locals) = false /\
    In (Metric "Annual Savings" (VNp (Fin 3000)) (Some (VNp PInf)))
       (w_log w').
Proof.
  split; [reflexivity|].
  eexists _, _. split; [vm_compute; reflexivity|].
  cbn [new_pred change pct_change w_log].
  repeat (split; [reflexivity|]). in_list.
Qed.

(** C2, as amended -- On a baseline whose cost is zero (a clamped
    prediction equal to zero, which is the integer [0] that [max(0, .)]
    returns) no scenario raises: the percent-change is the unguarded quotient
    of a numpy scalar by that [0], which is NaN when the change is zero or
    NaN and the infinity of the change's sign otherwise.  (Quit Smoking on a
    non-smoker computes nothing.) *)
Theorem zero_baseline_percent scaler model b w base f raw cost q :
  valid_form f = true ->
  last_formdata (w_session w) = Some base ->
  w_heap w !! base = Some (formdata f) ->
  last_prediction (w_session w) = Some cost ->
  py_max (VInt 0) (VNp raw) = inr cost ->
  to_ieee cost = Some (Fin q) ->
  Qzero_b q = true ->
  exists r w',
    scenarios_tab scaler model b w = (inr r, w') /\
    (r = None <-> b = quit_smoking /\ f_smoker f = false) /\
    forall locals, r = Some locals ->
      exists x, change locals = VNp x /\
                pct_change locals = VNp (zero_quotient x).
Proof.
  intros Hv Hb Hh Hp Hmax Hq Hzero.
  assert (Hint : cost = VInt 0).
  { rewrite py_max_zero in Hmax. inversion Hmax as [E]. rewrite <- E in Hq.
    apply (clamp_zero_is_int raw q Hq Hzero). }
  subst cost. clear Hmax Hq Hzero.
  assert (Hcase : (b = quit_smoking /\ f_smoker f = false) \/
                  (b = quit_smoking -> f_smoker f = true)).
  { destruct b; try (right; discriminate).
    destruct (f_smoker f); [right|left]; auto. }
  destruct Hcase as [[-> Hs] | Hs].
  - eexists _, _. split.
    + apply (quit_smoking_no_change scaler model w base (formdata f)
               (VBool false) (VInt 0)); auto.
      rewrite formdata_smoker, Hs. reflexivity.
    + split; [tauto|]. discriminate.
  - destruct (spec_transform_valid b f Hv) as (f' & feats & Ht & _ & Hf).
    eexists _, _. split.
    + eapply scenario_run; eauto.
    + split.
      * split; [discriminate|]. intros [-> Hfalse].
        rewrite (Hs eq_refl) in Hfalse. discriminate.
      * intros locals Hl. inversion Hl; subst locals; clear Hl.
        eexists. cbn [change pct_change]. split; [reflexivity|].
        rewrite zero_quotient_percent. reflexivity.
Qed.

Lemma zero_baseline_percent_witness :
  valid_form slim_form = true /\
  last_formdata (w_session slim_world) = Some 0%nat /\
  w_heap slim_world !! 0%nat = Some (formdata slim_form) /\
  last_prediction (w_session slim_world) = Some (VInt 0) /\
  py_max (VInt 0) (VNp (Fin (-1500))) = inr (VInt 0) /\
  exists r w',
    scenarios_tab example_scaler example_model age_factor slim_world
      = (inr r, w') /\
    (r = None <-> age_factor = quit_smoking /\ f_smoker slim_form = false) /\
    forall locals, r = Some locals ->
      exists x, change locals = VNp x /\
                pct_change locals = VNp (zero_quotient x).
Proof.
  assert (H1 : valid_form slim_form = true) by reflexivity.
  assert (H2 : last_formdata (w_session slim_world) = Some 0%nat)
    by reflexivity.
  assert (H3 : w_heap slim_world !! 0%nat = Some (formdata slim_form))
    by (vm_compute; reflexivity).
  assert (H4 : last_prediction (w_session slim_world) = Some (VInt 0))
    by reflexivity.
  assert (H5 : py_max (VInt 0) (VNp (Fin (-1500))) = inr (VInt 0))
    by reflexivity.
  repeat (split; [assumption|]).
  exact (zero_baseline_percent example_scaler example_model age_factor
           slim_world 0%nat slim_form (Fin (-1500)) (VInt 0) 0%Q
           H1 H2 H3 H4 H5 eq_refl eq_refl).
Defined.

(** C3 -- The claim fails on the code: after "Predict Cost" on
    [smoker_form], Quit Smoking takes the raw model output, -300, as the new
    cost and shows it unclamped. *)
Theorem scenario_cost_unclamped :
  last_prediction (w_session smoker_world) = Some (VNp (Fin 23700)) /\
  exists locals w',
    scenarios_tab example_scaler example_model quit_smoking smoker_world
      = (inr (Some locals), w') /\
    new_pred locals = VNp (Fin (-300)) /\
    py_nonneg (new_pred locals) = false /\
    In (Metric "New Annual Cost" (VNp (Fin (-300))) None) (w_log w').
Proof.
  split; [vm_compute; reflexivity|].
  eexists _, _. split; [vm_compute; reflexivity|].
  cbn [new_pred change pct_change w_log].
  repeat (split; [reflexivity|]). in_list.
Qed.

(** In every scenario [new_pred] is the raw model output. *)
Lemma scenario_new_pred_raw scaler model b w base f cost c f' feats :
  valid_form f = true ->
  last_formdata (w_session w) = Some base ->
  w_heap w !! base = Some (formdata f) ->
  last_prediction (w_session w) = Some cost ->
  to_ieee cost = Some c ->
  (b = quit_smoking -> f_smoker f = true) ->
  spec_transform b f = Some f' ->
  spec_features f' = Some feats ->
  exists locals w',
    scenarios_tab scaler model b w = (inr (Some locals), w') /\
    new_pred locals = VNp (model (scaler feats)).
Proof.
  intros. eexists _, _. split; [eapply scenario_run; eauto|reflexivity].
Qed.

(** The contract's encoding, written out on a valid form. *)
Lemma spec_features_valid f :
  valid_form f = true ->
  exists region_code,
    region_mapping !! f_region f = Some (VInt region_code) /\
    spec_features f
    = Some [Fin (inject_Z (f_age f));
            Fin (inject_Z (if String.eqb (f_sex f) "female" then 0 else 1));
            Fin (f_bmi f); Fin (inject_Z (f_children f));
            Fin (inject_Z (if f_smoker f then 1 else 0));
            Fin (inject_Z region_code)].
Proof.
  intros Hv. destruct (valid_form_codes f Hv) as (Hs & rc & Hr & Hm).
  exists rc. split; [exact Hm|].
  unfold spec_features. rewrite Hs, Hr. reflexivity.
Qed.

Lemma next_region_spec r :
  In r regions -> next_region r = spec_next_region r.
Proof.
  cbn. intros [<- | [<- | [<- | [<- | []]]]]; reflexivity.
Qed.

Lemma valid_region_listed f : valid_form f = true -> In (f_region f) regions.
Proof.
  intros Hv. cbn.
  destruct (valid_region f Hv) as [ -> | [ -> | [ -> | -> ]]]; tauto.
Qed.

(** C7 -- The Change Region transform is the function [next_region]; it maps
    northwest to northeast, northeast to southwest, southwest to southeast
    and southeast back to northwest, four applications return the region
    they started from, and the handler stores exactly this next region in
    the modified profile, whatever the order of the select box. *)
Theorem change_region_cycle :
  next_region "northwest" = Some "northeast" /\
  next_region "northeast" = Some "southwest" /\
  next_region "southwest" = Some "southeast" /\
  next_region "southeast" = Some "northwest" /\
  (forall r, In r regions -> next_region_n 4 r = Some r) /\
  (forall scaler model w base f cost c,
     valid_form f = true ->
     last_formdata (w_session w) = Some base ->
     w_heap w !! base = Some (formdata f) ->
     last_prediction (w_session w) = Some cost ->
     to_ieee cost = Some c ->
     exists locals w' r,
       scenarios_tab scaler model change_region w = (inr (Some locals), w') /\
       next_region (f_region f) = Some r /\
       spec_next_region (f_region f) = Some r /\
       w_heap w' !! modified locals
       = Some (<["region" := VStr r]> (formdata f))).
Proof.
  repeat (split; [reflexivity|]). split.
  - cbn. intros r [<- | [<- | [<- | [<- | []]]]]; reflexivity.
  - intros scaler model w base f cost c Hv Hb Hh Hp Hc.
    destruct (spec_transform_valid change_region f Hv)
      as (f' & feats & Ht & _ & Hf).
    pose proof (valid_region_listed f Hv) as Hin.
    pose proof (next_region_spec _ Hin) as Hn.
    assert (Hr : exists r, next_region (f_region f) = Some r).
    { cbn in Hin.
      destruct Hin as [<- | [<- | [<- | [<- | []]]]]; eexists; reflexivity. }
    destruct Hr as (r & Hr).
    eexists _, _, r. split.
    + eapply scenario_run; eauto. discriminate.
    + split; [exact Hr|]. split; [rewrite <- Hn; exact Hr|].
      cbn [modified w_heap set_log set_heap].
      rewrite heap_alloc_lookup. cbn [modified_dict]. rewrite Hr.
      reflexivity.
Qed.

Lemma change_region_cycle_witness :
  In "southeast" regions /\
  next_region_n 4 "southeast" = Some "southeast" /\
  exists locals w' r,
    scenarios_tab example_scaler example_model change_region smoker_world
      = (inr (Some locals), w') /\
    next_region (f_region smoker_form) = Some r /\
    spec_next_region (f_region smoker_form) = Some r /\
    w_heap w' !! modified locals
    = Some (<["region" := VStr r]> (formdata smoker_form)).
Proof.
  destruct change_region_cycle as (_ & _ & _ & _ & H4 & Hrun).
  assert (Hin : In "southeast" regions) by (cbn; tauto).
  split; [exact Hin|]. split; [exact (H4 _ Hin)|].
  apply (Hrun example_scaler example_model smoker_world 0%nat smoker_form
           (VNp (Fin 23700)) (Fin 23700)).
  - reflexivity.
  - reflexivity.
  - vm_compute; reflexivity.
  - vm_compute; reflexivity.
  - reflexivity.
Defined.

(** C8 -- Quit Smoking on a baseline whose [smoker] entry is false shows the
    no-change message and nothing else: no model call, no metric, no local
    results; conversely a run that returns results, calls the model or shows
    a metric had a baseline with a true [smoker] entry. *)
Theorem quit_smoking_non_smoker scaler model w base d v cost :
  last_prediction (w_session w) = Some cost ->
  last_formdata (w_session w) = Some base ->
  w_heap w !! base = Some d ->
  d !! "smoker" = Some v ->
  (truthy v = false ->
   scenarios_tab scaler model quit_smoking w =
     (inr None,
      set_log (w_log w ++ [Success "You're already a non-smoker!"])%list w)) /\
  (forall r w',
     scenarios_tab scaler model quit_smoking w = (r, w') ->
     (exists locals, r = inr (Some locals)) \/
     (exists evs ev, w_log w' = (w_log w ++ evs)%list /\ In ev evs /\
                     is_model_call ev || is_metric ev = true) ->
     truthy v = true).
Proof.
  intros Hp Hb Hh Hd.
  assert (Hno : truthy v = false ->
                scenarios_tab scaler model quit_smoking w =
                  (inr None,
                   set_log (w_log w ++ [Success "You're already a non-smoker!"])%list w))
    by (intros Ht; eapply quit_smoking_no_change; eauto).
  split; [exact Hno|].
  intros r w' Hrun Hobs.
  destruct (truthy v) eqn:Ht; [reflexivity|].
  rewrite (Hno eq_refl) in Hrun. inversion Hrun; subst r w'; clear Hrun.
  destruct Hobs as [(locals & Hl) | (evs & ev & Hlog & Hin & Hk)].
  - discriminate.
  - cbn [w_log set_log] in Hlog. apply app_inv_head in Hlog. subst evs.
    destruct Hin as [<- | []]. discriminate.
Qed.

Lemma quit_smoking_non_smoker_witness :
  last_prediction (w_session slim_world) = Some (VInt 0) /\
  f_smoker slim_form = false /\
  scenarios_tab example_scaler example_model quit_smoking slim_world =
    (inr None,
     set_log (w_log slim_world ++ [Success "You're already a non-smoker!"])%list
       slim_world).
Proof.
  split; [reflexivity|]. split; [reflexivity|].
  refine (proj1 (quit_smoking_non_smoker example_scaler example_model
                   slim_world 0%nat (formdata slim_form) (VBool false)
                   (VInt 0) _ _ _ _) _).
  - reflexivity.
  - reflexivity.
  - vm_compute; reflexivity.
  - vm_compute; reflexivity.
  - reflexivity.
Defined.

(** C9 -- The one model call of the Predict Cost handler is made on the
    scaled contract encoding [age, sex_code, bmi, children, smoker_code,
    region_code] of the form, and the one model call of each scenario on the
    same encoding of the transformed profile. *)
Theorem encoding_contract scaler model :
  (forall now f w,
     valid_form f = true ->
     exists feats evs w',
       spec_features f = Some feats /\
       predict_cost scaler model now f w = (inr tt, w') /\
       w_log w' = (w_log w ++ evs)%list /\
       List.filter is_model_call evs = [ModelCall (scaler feats)]) /\
  (forall b w base f cost c,
     valid_form f = true ->
     last_formdata (w_session w) = Some base ->
     w_heap w !! base = Some (formdata f) ->
     last_prediction (w_session w) = Some cost ->
     to_ieee cost = Some c ->
     (b = quit_smoking -> f_smoker f = true) ->
     exists f' feats locals evs w',
       spec_transform b f = Some f' /\
       spec_features f' = Some feats /\
       scenarios_tab scaler model b w = (inr (Some locals), w') /\
       w_log w' = (w_log w ++ evs)%list /\
       List.filter is_model_call evs = [ModelCall (scaler feats)] /\
       new_pred locals = VNp (model (scaler feats))).
Proof.
  split.
  - intros now f w Hv.
    destruct (valid_form_codes f Hv) as (Hs & rc & Hr & _).
    assert (Hf : exists feats, spec_features f = Some feats)
      by (unfold spec_features; rewrite Hs, Hr; eauto).
    destruct Hf as (feats & Hf).
    eexists feats, _, _. split; [exact Hf|].
    split; [apply predict_cost_run; eauto|].
    split; reflexivity.
  - intros b w base f cost c Hv Hb Hh Hp Hc Hs.
    destruct (spec_transform_valid b f Hv) as (f' & feats & Ht & _ & Hf).
    eexists f', feats, _, _, _.
    split; [exact Ht|]. split; [exact Hf|].
    split; [eapply scenario_run; eauto|].
    split; [reflexivity|].
    split; [|reflexivity].
    cbn [List.filter is_model_call]. rewrite shown_model_calls. reflexivity.
Qed.

Lemma encoding_contract_witness :
  valid_form smoker_form = true /\
  exists f' feats locals evs w',
    spec_transform lower_bmi smoker_form = Some f' /\
    spec_features f' = Some feats /\
    scenarios_tab example_scaler example_model lower_bmi smoker_world
      = (inr (Some locals), w') /\
    w_log w' = (w_log smoker_world ++ evs)%list /\
    List.filter is_model_call evs = [ModelCall (example_scaler feats)] /\
    new_pred locals = VNp (example_model (example_scaler feats)).
Proof.
  split; [reflexivity|].
  apply (proj2 (encoding_contract example_scaler example_model) lower_bmi
           smoker_world 0%nat smoker_form (VNp (Fin 23700)) (Fin 23700)).
  - reflexivity.
  - reflexivity.
  - vm_compute; reflexivity.
  - vm_compute; reflexivity.
  - reflexivity.
  - discriminate.
Defined.

(** C10 -- A scenario run ends normally and leaves the database (so the
    [predictions] table), the session's [last_prediction] and
    [last_formdata], and every dictionary that existed before as they were:
    the profile it modifies is a new object, a copy of the baseline with the
    scenario's one entry replaced.  Predict Cost is what appends a record. *)
Theorem scenario_leaves_baseline scaler model b w base f cost c :
  valid_form f = true ->
  last_formdata (w_session w) = Some base ->
  w_heap w !! base = Some (formdata f) ->
  last_prediction (w_session w) = Some cost ->
  to_ieee cost = Some c ->
  (exists r w',
     scenarios_tab scaler model b w = (inr r, w') /\
     w_db w' = w_db w /\
     w_session w' = w_session w /\
     w_heap w' !! base = Some (formdata f) /\
     (forall l d, w_heap w !! l = Some d -> w_heap w' !! l = Some d) /\
     (forall locals, r = Some locals ->
        modified locals <> base /\
        w_heap w !! modified locals = None /\
        w_heap w' !! modified locals = Some (modified_dict b f))) /\
  (forall now g,
     valid_form g = true ->
     exists row w1,
       predict_cost scaler model now g w = (inr tt, w1) /\
       predictions (w_db w1) = (predictions (w_db w) ++ [row])%list).
Proof.
  intros Hv Hb Hh Hp Hc. split.
  - assert (Hcase : (b = quit_smoking /\ f_smoker f = false) \/
                    (b = quit_smoking -> f_smoker f = true)).
    { destruct b; try (right; discriminate).
      destruct (f_smoker f); [right|left]; auto. }
    destruct Hcase as [[-> Hs] | Hs].
    + eexists _, _. split.
      * apply (quit_smoking_no_change scaler model w base (formdata f)
                 (VBool false) cost); auto.
        rewrite formdata_smoker, Hs. reflexivity.
      * cbn [w_db w_session w_heap set_log].
        do 4 (split; [auto|]). intros locals Hl. discriminate Hl.
    + destruct (spec_transform_valid b f Hv) as (f' & feats & Ht & _ & Hf).
      eexists _, _. split; [eapply scenario_run; eauto|].
      cbn [w_db w_session w_heap set_log set_heap].
      split; [reflexivity|]. split; [reflexivity|].
      split; [apply heap_alloc_old; exact Hh|].
      split; [intros l d Hl; apply heap_alloc_old; exact Hl|].
      intros locals Hl. inversion Hl; subst locals; clear Hl.
      cbn [modified].
      assert (Hlt : (base < length (w_heap w))%nat)
        by (eapply lookup_lt_Some; eauto).
      split; [lia|]. split.
      * apply lookup_ge_None. lia.
      * apply heap_alloc_lookup.
  - intros now g Hg.
    destruct (spec_features_valid g Hg) as (rc & _ & Hf).
    eexists _, _. split; [apply predict_cost_run; eauto|].
    unfold save_prediction. cbn [w_db predictions]. reflexivity.
Qed.

Lemma scenario_leaves_baseline_witness :
  valid_form smoker_form = true /\
  exists r w',
    scenarios_tab example_scaler example_model quit_smoking smoker_world
      = (inr r, w') /\
    w_db w' = w_db smoker_world /\
    w_session w' = w_session smoker_world /\
    w_heap w' !! 0%nat = Some (formdata smoker_form) /\
    (forall l d, w_heap smoker_world !! l = Some d ->
                 w_heap w' !! l = Some d) /\
    (forall locals, r = Some locals ->
       modified locals <> 0%nat /\
       w_heap smoker_world !! modified locals = None /\
       w_heap w' !! modified locals
       = Some (modified_dict quit_smoking smoker_form)).
Proof.
  split; [reflexivity|].
  refine (proj1 (scenario_leaves_baseline example_scaler example_model
                   quit_smoking smoker_world 0%nat smoker_form
                   (VNp (Fin 23700)) (Fin 23700) _ _ _ _ _)).
  - reflexivity.
  - reflexivity.
  - vm_compute; reflexivity.
  - vm_compute; reflexivity.
  - reflexivity.
Defined.

(** Item assignment through a shared reference is seen by every holder: had
    a handler written to [last_formdata] itself instead of to its copy, the
    baseline would have changed. *)
Example setitem_aliases :
  w_heap (snd (dict_setitem 0%nat "smoker" (VBool false) smoker_world))
    !! 0%nat
  = Some (<["smoker" := VBool false]> (formdata smoker_form)).
Proof. vm_compute. reflexivity. Qed.

(** * The login page, the history and the session *)

(** ** The shape of a stored password *)

Lemma all_chars_append p s t :
  all_chars p (String.append s t) = all_chars p s && all_chars p t.
Proof.
  induction s as [|c s IH]; [reflexivity|].
  change (String.append (String c s) t) with (String c (String.append s t)).
  cbn [all_chars]. rewrite IH, andb_assoc. reflexivity.
Qed.

Lemma string_length_append s t :
  String.length (String.append s t) = (String.length s + String.length t)%nat.
Proof.
  induction s as [|c s IH]; [reflexivity|].
  change (String.append (String c s) t) with (String c (String.append s t)).
  cbn [String.length]. rewrite IH. reflexivity.
Qed.

Lemma hex_digit_is_hex x :
  0 <= x < 16 -> is_hex_char (SHA256.hex_digit x) = true.
Proof.
  intros H.
  assert (Hc : x = 0 \/ x = 1 \/ x = 2 \/ x = 3 \/ x = 4 \/ x = 5 \/ x = 6 \/
               x = 7 \/ x = 8 \/ x = 9 \/ x = 10 \/ x = 11 \/ x = 12 \/
               x = 13 \/ x = 14 \/ x = 15) by lia.
  repeat (destruct Hc as [-> | Hc]; [reflexivity|]). subst x. reflexivity.
Qed.

Lemma hex_nibbles_shape n x :
  String.length (SHA256.hex_nibbles n x) = n /\
  all_chars is_hex_char (SHA256.hex_nibbles n x) = true.
Proof.
  revert x. induction n as [|n IH]; intros x; cbn [SHA256.hex_nibbles].
  - split; reflexivity.
  - destruct (IH (Z.shiftr x 4)) as [Hl Hc].
    rewrite string_length_append, all_chars_append, Hl, Hc. cbn.
    split; [lia|].
    rewrite hex_digit_is_hex; [reflexivity|].
    change 15 with (Z.ones 4). rewrite Z.land_ones by lia.
    apply Z.mod_pos_bound. lia.
Qed.

Lemma round_length st kw :
  length st = 8%nat -> length (SHA256.round st kw) = 8%nat.
Proof.
  intros H. do 8 (destruct st as [|? st]; [discriminate|]).
  destruct st; [reflexivity | discriminate].
Qed.

Lemma rounds_length kws st :
  length st = 8%nat -> length (fold_left SHA256.round kws st) = 8%nat.
Proof.
  revert st. induction kws as [|kw kws IH]; intros st H; cbn; [exact H|].
  apply IH. apply round_length. exact H.
Qed.

Lemma add_all_length xs ys :
  length xs = length ys -> length (SHA256.add_all xs ys) = length xs.
Proof.
  revert ys. induction xs as [|x xs IH]; intros [|y ys] H; cbn in *;
    try reflexivity; try discriminate.
  rewrite IH by lia. reflexivity.
Qed.

Lemma compress_length h block :
  length h = 8%nat -> length (SHA256.compress h block) = 8%nat.
Proof.
  intros H. unfold SHA256.compress.
  rewrite add_all_length; [exact H|].
  rewrite rounds_length; auto.
Qed.

Lemma digest_length msg : length (SHA256.digest msg) = 8%nat.
Proof.
  unfold SHA256.digest.
  generalize (SHA256.chunks
                (length (SHA256.words (length (SHA256.pad msg))
                           (SHA256.pad msg)))
                (SHA256.words (length (SHA256.pad msg)) (SHA256.pad msg))).
  intros blocks.
  assert (H0 : length SHA256.H0 = 8%nat) by reflexivity.
  revert H0. generalize SHA256.H0.
  induction blocks as [|b blocks IH]; intros h Hh; cbn; [exact Hh|].
  apply IH. apply compress_length. exact Hh.
Qed.

Lemma hex_words_shape ws :
  String.length
    (fold_right (fun w acc => String.append (SHA256.hex_nibbles 8 w) acc)
                EmptyString ws) = (8 * length ws)%nat /\
  all_chars is_hex_char
    (fold_right (fun w acc => String.append (SHA256.hex_nibbles 8 w) acc)
                EmptyString ws) = true.
Proof.
  induction ws as [|w ws [IHl IHc]]; cbn [fold_right length].
  - split; reflexivity.
  - destruct (hex_nibbles_shape 8 w) as [Hl Hc].
    rewrite string_length_append, all_chars_append, Hl, Hc, IHl, IHc.
    split; [lia | reflexivity].
Qed.

(** X1 -- Whatever the password, [hash_password] returns 64 characters, all
    of them lower-case hexadecimal digits; so what is stored differs from
    every password that is not itself such a string. *)
Theorem hash_password_shape password :
  String.length (hash_password password) = 64%nat /\
  all_chars is_hex_char (hash_password password) = true /\
  (String.length password <> 64%nat \/
   all_chars is_hex_char password = false ->
   hash_password password <> password).
Proof.
  unfold hash_password, SHA256.hexdigest.
  destruct (hex_words_shape (SHA256.digest (encode password))) as [Hl Hc].
  rewrite digest_length in Hl.
  split; [exact Hl|]. split; [exact Hc|].
  intros [Hn | Hn] E; rewrite E in *; [apply Hn; exact Hl | congruence].
Qed.

Lemma hash_password_shape_witness :
  String.length "secret1" <> 64%nat /\
  hash_password "secret1" <> "secret1".
Proof.
  assert (H : String.length "secret1" <> 64%nat) by (cbn; lia).
  split; [exact H|].
  exact (proj2 (proj2 (hash_password_shape "secret1")) (or_introl H)).
Defined.

(** ** Accounts and records over time *)

Lemma below_next_rowid ids x : In x ids -> x < next_rowid ids.
Proof.
  unfold next_rowid. induction ids as [|y ids IH]; cbn; [tauto|].
  intros [-> | H]; [lia|]. specialize (IH H). lia.
Qed.

Lemma NoDup_snoc {A} (l : list A) (x : A) :
  NoDup l -> ~ In x l -> NoDup (l ++ [x])%list.
Proof.
  intros Hl Hx. apply NoDup_app. split; [exact Hl|].
  split; [|apply NoDup_singleton].
  intros y Hy Hin. apply list_elem_of_In in Hy, Hin.
  destruct Hin as [<- | []]. exact (Hx Hy).
Qed.

Lemma not_taken_not_in db u :
  username_taken db u = false -> ~ In u (map u_username (users db)).
Proof.
  unfold username_taken. intros H Hin.
  apply in_map_iff in Hin as (r & Hr & Hin).
  assert (Ht : existsb (fun r => String.eqb (u_username r) u) (users db)
               = true).
  { apply existsb_exists. exists r. split; [exact Hin|].
    rewrite Hr. apply String.eqb_refl. }
  congruence.
Qed.

Lemma create_user_distinct db u p now :
  distinct_rows db -> distinct_rows (snd (create_user db u p now)).
Proof.
  intros (Hn & Hu & Hp). unfold create_user, insert_user.
  destruct (username_taken db u) eqn:Ht; cbn [snd]; [repeat split; auto|].
  unfold distinct_rows. cbn [users predictions].
  rewrite !map_app. cbn [map u_username u_id].
  split; [|split; [|exact Hp]].
  - apply NoDup_snoc; [exact Hn | apply not_taken_not_in; exact Ht].
  - apply NoDup_snoc; [exact Hu|].
    intros Hin. apply below_next_rowid in Hin. lia.
Qed.

Lemma save_prediction_distinct db user age sex bmi children smoker region
    prediction now :
  distinct_rows db ->
  distinct_rows
    (save_prediction db user age sex bmi children smoker region prediction
       now).
Proof.
  intros (Hn & Hu & Hp). unfold distinct_rows, save_prediction.
  cbn [users predictions].
  split; [exact Hn|]. split; [exact Hu|].
  rewrite map_app. cbn [map p_id].
  apply NoDup_snoc; [exact Hp|].
  intros Hin. apply below_next_rowid in Hin. lia.
Qed.

(** X2 -- Both writers keep usernames and rowids distinct: if no two
    accounts share a username and no two rows of a table share a rowid, the
    same holds after [create_user] (whether it succeeds or not) and after
    [save_prediction]. *)
Theorem writers_keep_rows_distinct db :
  distinct_rows db ->
  (forall u p now, distinct_rows (snd (create_user db u p now))) /\
  (forall user age sex bmi children smoker region prediction now,
     distinct_rows
       (save_prediction db user age sex bmi children smoker region
          prediction now)).
Proof.
  intros H. split; intros.
  - apply create_user_distinct, H.
  - apply save_prediction_distinct, H.
Qed.

Lemma writers_keep_rows_distinct_witness :
  distinct_rows init_db /\
  distinct_rows (snd (create_user init_db "alice" "secret1" 0)) /\
  distinct_rows
    (save_prediction init_db "alice" 30 "male" 25 0 0 "northwest"
       (VInt 0) 5).
Proof.
  assert (H : distinct_rows init_db)
    by (repeat split; apply NoDup_nil_2).
  destruct (writers_keep_rows_distinct init_db H) as [Hc Hs].
  split; [exact H|]. split; [apply Hc | apply Hs].
Defined.

Lemma select_user_snoc db row u h :
  List.filter
    (fun r => String.eqb (u_username r) u && String.eqb (u_password r) h)
    (users db ++ [row])%list
  = (select_user db u h ++
     (if String.eqb (u_username row) u && String.eqb (u_password row) h
      then [row] else []))%list.
Proof. rewrite List.filter_app. reflexivity. Qed.

(** X3 -- Signing up cannot change who may log in to an existing account:
    for a username that already has an account, or that differs from the one
    being created, [verify_user] answers after [create_user] as it did
    before; and [save_prediction] never changes what [verify_user]
    answers. *)
Theorem existing_accounts_unaffected db u p :
  (forall u' p' now,
     username_taken db u = true \/ u' <> u ->
     verify_user (snd (create_user db u' p' now)) u p = verify_user db u p) /\
  (forall user age sex bmi children smoker region prediction now,
     verify_user
       (save_prediction db user age sex bmi children smoker region
          prediction now) u p
     = verify_user db u p).
Proof.
  split; [|reflexivity].
  intros u' p' now Hcase.
  unfold create_user, insert_user.
  destruct (username_taken db u') eqn:Ht; cbn [snd]; [reflexivity|].
  assert (Hne : String.eqb u' u = false).
  { destruct (String.eqb_spec u' u) as [E|E]; [|reflexivity].
    subst u'. destruct Hcase as [H|H]; congruence. }
  unfold verify_user at 1. unfold select_user. cbn [users].
  rewrite select_user_snoc. cbn [u_username u_password].
  rewrite Hne. cbn [andb]. rewrite app_nil_r. reflexivity.
Qed.

Lemma existing_accounts_unaffected_witness :
  verify_user
    (snd (create_user (snd (create_user init_db "alice" "secret1" 0))
            "alice" "intruder" 9)) "alice" "intruder" = false.
Proof.
  rewrite (proj1 (existing_accounts_unaffected
                    (snd (create_user init_db "alice" "secret1" 0))
                    "alice" "intruder") "alice" "intruder" 9).
  - vm_compute. reflexivity.
  - left. vm_compute. reflexivity.
Defined.

(** ** The history query *)

Lemma insert_desc_perm r sorted :
  Permutation (insert_desc r sorted) (r :: sorted).
Proof.
  induction sorted as [|x rest IH]; cbn; [reflexivity|].
  destruct (p_created_at r <? p_created_at x); [|reflexivity].
  rewrite IH. apply perm_swap.
Qed.

Lemma order_perm rows : Permutation (order_by_created_at_desc rows) rows.
Proof.
  unfold order_by_created_at_desc.
  induction rows as [|r rows IH]; cbn; [reflexivity|].
  rewrite insert_desc_perm, IH. reflexivity.
Qed.

Lemma insert_desc_sorted r sorted :
  StronglySorted (fun a b => p_created_at b <= p_created_at a) sorted ->
  StronglySorted (fun a b => p_created_at b <= p_created_at a)
    (insert_desc r sorted).
Proof.
  induction 1 as [|x rest Hs IH Hx]; cbn.
  - repeat constructor.
  - destruct (p_created_at r <? p_created_at x) eqn:E.
    + apply Z.ltb_lt in E. constructor; [exact IH|].
      apply List.Forall_forall. intros y Hy.
      apply (Permutation_in _ (insert_desc_perm r rest)) in Hy.
      destruct Hy as [<- | Hy]; [lia|].
      rewrite List.Forall_forall in Hx. auto.
    + apply Z.ltb_ge in E. constructor; [constructor; assumption|].
      constructor; [exact E|].
      rewrite List.Forall_forall in Hx |- *. intros y Hy.
      specialize (Hx y Hy). lia.
Qed.

Lemma order_sorted rows :
  StronglySorted (fun a b => p_created_at b <= p_created_at a)
    (order_by_created_at_desc rows).
Proof.
  unfold order_by_created_at_desc.
  induction rows as [|r rows IH]; cbn; [constructor|].
  apply insert_desc_sorted. exact IH.
Qed.

Lemma sorted_map_project rows :
  StronglySorted (fun a b => p_created_at b <= p_created_at a) rows ->
  StronglySorted (fun a b => created_at_of b <= created_at_of a)
    (map project rows).
Proof.
  induction 1 as [|x rest Hs IH Hx]; cbn; constructor; [exact IH|].
  rewrite List.Forall_forall in Hx. apply List.Forall_forall. intros y Hy.
  apply in_map_iff in Hy as (z & <- & Hz). apply (Hx z Hz).
Qed.

(** X4 -- The history of a user holds exactly the user's stored records,
    each once, and no record of anyone else, ordered from the latest
    [created_at] to the earliest. *)
Theorem history_sorted_and_complete db user :
  StronglySorted (fun a b => created_at_of b <= created_at_of a)
    (get_user_predictions db user) /\
  Permutation (get_user_predictions db user) (stored_for db user).
Proof.
  unfold get_user_predictions, stored_for. split.
  - apply sorted_map_project, order_sorted.
  - apply Permutation_map, order_perm.
Qed.

(** X5 -- A record saved for one user leaves the history of every other
    user as it was, and creating an account leaves every history as it
    was. *)
Theorem histories_are_separate db other :
  (forall user age sex bmi children smoker region prediction now,
     user <> other ->
     get_user_predictions
       (save_prediction db user age sex bmi children smoker region
          prediction now) other
     = get_user_predictions db other) /\
  (forall u p now,
     get_user_predictions (snd (create_user db u p now)) other
     = get_user_predictions db other).
Proof.
  split.
  - intros user age sex bmi children smoker region prediction now Hne.
    unfold get_user_predictions, save_prediction. cbn [predictions].
    rewrite List.filter_app. cbn [List.filter p_username].
    destruct (String.eqb_spec user other) as [E|_]; [contradiction|].
    rewrite app_nil_r. reflexivity.
  - intros u p now. unfold create_user, insert_user.
    destruct (username_taken db u); reflexivity.
Qed.

Lemma histories_are_separate_witness :
  "alice" <> "bob" /\
  get_user_predictions
    (save_prediction example_ledger "alice" 32 "male" 27 1 0 "northeast"
       (VFloat (Fin 5100)) 300) "bob"
  = get_user_predictions example_ledger "bob".
Proof.
  assert (H : "alice" <> "bob") by discriminate.
  split; [exact H|].
  apply (proj1 (histories_are_separate example_ledger "bob")). exact H.
Defined.

(** ** The history tab *)

Lemma Qlt_b_true x y : Qlt_b x y = true -> (x < y)%Q.
Proof.
  unfold Qlt_b. destruct (x ?= y)%Q eqn:C; try discriminate.
  intros _. apply Qlt_alt. exact C.
Qed.

Lemma Qlt_b_false x y : Qlt_b x y = false -> (y <= x)%Q.
Proof.
  unfold Qlt_b. destruct (x ?= y)%Q eqn:C; try discriminate; intros _.
  - apply Qeq_alt in C. rewrite C. apply Qle_refl.
  - apply Qgt_alt in C. apply Qlt_le_weak. exact C.
Qed.

Lemma table_rows_floats history :
  Forall float_cost history -> table_rows history = inr (map row_of history).
Proof.
  induction 1 as [|r rest [x Hx] _ IH]; [reflexivity|].
  destruct r as [[[[[[[age sex] bmi] children] smoker] region] prediction]
                   created_at].
  cbn in Hx. subst prediction. cbn [table_rows format_float].
  rewrite IH. reflexivity.
Qed.

Lemma py_max_list_float x rest :
  Forall (fun v => exists y, v = VFloat y) rest ->
  exists m, py_max_list (VFloat x) rest = inr (VFloat m).
Proof.
  intros H. revert x.
  induction H as [|v rest [y ->] _ IH]; intros x; cbn; [eauto|].
  destruct (ieee_lt x y); apply IH.
Qed.

Lemma py_min_list_float x rest :
  Forall (fun v => exists y, v = VFloat y) rest ->
  exists m, py_min_list (VFloat x) rest = inr (VFloat m).
Proof.
  intros H. revert x.
  induction H as [|v rest [y ->] _ IH]; intros x; cbn; [eauto|].
  destruct (ieee_lt y x); apply IH.
Qed.

Lemma py_sum_float x rest :
  Forall (fun v => exists y, v = VFloat y) rest ->
  exists s, py_sum (VFloat x) rest = inr (VFloat s).
Proof.
  intros H. revert x.
  induction H as [|v rest [y ->] _ IH]; intros x; cbn; [eauto|].
  apply IH.
Qed.

Lemma Qzero_b_positive n : (0 < n)%Z -> Qzero_b (inject_Z n) = false.
Proof.
  intros H. unfold Qzero_b, Qcompare, inject_Z. cbn [Qnum Qden].
  rewrite Z.mul_1_r. cbn. destruct n; try lia. reflexivity.
Qed.

Lemma average_float s n :
  (0 < n)%Z ->
  py_truediv (VFloat s) (VInt n)
  = inr (VFloat (ieee_div s (Fin (inject_Z n)))).
Proof.
  intros H. unfold py_truediv. cbn [to_ieee is_np orb ieee_sign].
  rewrite (Qzero_b_positive n H). reflexivity.
Qed.

Lemma costs_floats (history : list history_row) :
  Forall float_cost history ->
  Forall (fun v => exists y, v = VFloat y) (map cost_of history).
Proof. induction 1; cbn; constructor; auto. Qed.

Lemma history_tab_shape db user first rest :
  get_user_predictions db user = first :: rest ->
  Forall float_cost (first :: rest) ->
  exists highest lowest average,
    history_tab db user =
      ([HistoryCount (S (length rest));
        Dataframe (map row_of (first :: rest));
        Shown (Metric "Latest Cost" (cost_of first) None);
        Shown (Metric "Highest Cost" (VFloat highest) None);
        Shown (Metric "Lowest Cost" (VFloat lowest) None);
        Shown (Metric "Average Cost" (VFloat average) None)], None).
Proof.
  intros E Hf. unfold history_tab. rewrite E.
  rewrite (table_rows_floats _ Hf).
  inversion Hf as [|? ? [x Hx] Hrest]; subst.
  pose proof (costs_floats _ Hrest) as Hc.
  unfold statistics. rewrite Hx. cbn [format_float].
  destruct (py_max_list_float x _ Hc) as (hi & ->).
  destruct (py_min_list_float x _ Hc) as (lo & ->).
  cbn [py_sum py_add to_int to_ieee float_like is_np orb].
  destruct (py_sum_float (ieee_sub (Fin (inject_Z 0)) (ieee_neg x)) _ Hc)
    as (s & ->).
  rewrite average_float by (cbn [length]; lia).
  eexists hi, lo, _. reflexivity.
Qed.

(** X6 -- When the stored costs of a user are floats, the history tab ends
    without an exception: for an empty history it shows only the hint;
    otherwise the number of records, one table row per record in the order
    of the history, and the four statistics, the first of which is the cost
    of the newest record. *)
Theorem history_tab_shows_all db user :
  Forall float_cost (get_user_predictions db user) ->
  (get_user_predictions db user = [] ->
   history_tab db user =
     ([Shown (Info "Make your first prediction in the Predictor tab to see your history here!")],
      None)) /\
  (forall first rest,
     get_user_predictions db user = first :: rest ->
     exists highest lowest average,
       history_tab db user =
         ([HistoryCount (S (length rest));
           Dataframe (map row_of (first :: rest));
           Shown (Metric "Latest Cost" (cost_of first) None);
           Shown (Metric "Highest Cost" (VFloat highest) None);
           Shown (Metric "Lowest Cost" (VFloat lowest) None);
           Shown (Metric "Average Cost" (VFloat average) None)], None)).
Proof.
  intros Hf. split.
  - intros E. unfold history_tab. rewrite E. reflexivity.
  - intros first rest E. apply history_tab_shape; [exact E|].
    rewrite <- E. exact Hf.
Qed.

Lemma history_tab_shows_all_witness :
  Forall float_cost (get_user_predictions example_ledger "alice") /\
  exists highest lowest average,
    history_tab example_ledger "alice" =
      ([HistoryCount 2;
        Dataframe
          (map row_of
             [(31, "male", 26%Q, 0, 0, "northwest", VFloat (Fin (inject_Z 0)),
               200);
              (30, "male", 25%Q, 0, 0, "northwest", VFloat (Fin 4200), 100)]);
        Shown (Metric "Latest Cost" (VFloat (Fin (inject_Z 0))) None);
        Shown (Metric "Highest Cost" (VFloat highest) None);
        Shown (Metric "Lowest Cost" (VFloat lowest) None);
        Shown (Metric "Average Cost" (VFloat average) None)], None).
Proof.
  assert (H : Forall float_cost (get_user_predictions example_ledger "alice")).
  { repeat constructor; eexists; reflexivity. }
  split; [exact H|].
  exact (proj2 (history_tab_shows_all example_ledger "alice" H) _ _ eq_refl).
Defined.

Lemma finite_costs_list (history : list history_row) :
  Forall finite_cost history ->
  exists qs, map cost_of history = map (fun q => VFloat (Fin q)) qs /\
             length qs = length history.
Proof.
  induction 1 as [|r rest [q Hq] _ (qs & IH & Hl)].
  - exists []. split; reflexivity.
  - exists (q :: qs). cbn. rewrite Hq, IH, Hl. split; reflexivity.
Qed.

Lemma py_max_list_finite a qs :
  exists m,
    py_max_list (VFloat (Fin a)) (map (fun q => VFloat (Fin q)) qs)
    = inr (VFloat (Fin m)) /\
    In m (a :: qs) /\ Forall (fun q => q <= m)%Q (a :: qs).
Proof.
  revert a. induction qs as [|x qs IH]; intros a; cbn [map py_max_list].
  - exists a. split; [reflexivity|]. split; [left; reflexivity|].
    constructor; [apply Qle_refl | constructor].
  - unfold py_max, py_lt. cbn [to_ieee ieee_lt].
    destruct (Qlt_b a x) eqn:E.
    + destruct (IH x) as (m & Hm & Hin & Hall).
      exists m. split; [exact Hm|]. split; [right; exact Hin|].
      inversion Hall as [|? ? Hx Hrest]; subst.
      constructor; [|exact Hall].
      apply Qlt_b_true in E. apply Qlt_le_weak.
      eapply Qlt_le_trans; eauto.
    + destruct (IH a) as (m & Hm & Hin & Hall).
      exists m. split; [exact Hm|]. split.
      * destruct Hin as [<- | Hin]; [left; reflexivity | right; right; exact Hin].
      * inversion Hall as [|? ? Ha Hrest]; subst.
        constructor; [exact Ha|]. constructor; [|exact Hrest].
        apply Qlt_b_false in E. eapply Qle_trans; eauto.
Qed.

Lemma py_min_list_finite a qs :
  exists m,
    py_min_list (VFloat (Fin a)) (map (fun q => VFloat (Fin q)) qs)
    = inr (VFloat (Fin m)) /\
    In m (a :: qs) /\ Forall (fun q => m <= q)%Q (a :: qs).
Proof.
  revert a. induction qs as [|x qs IH]; intros a; cbn [map py_min_list].
  - exists a. split; [reflexivity|]. split; [left; reflexivity|].
    constructor; [apply Qle_refl | constructor].
  - unfold py_min, py_lt. cbn [to_ieee ieee_lt].
    destruct (Qlt_b x a) eqn:E.
    + destruct (IH x) as (m & Hm & Hin & Hall).
      exists m. split; [exact Hm|]. split; [right; exact Hin|].
      inversion Hall as [|? ? Hx Hrest]; subst.
      constructor; [|exact Hall].
      apply Qlt_b_true in E. apply Qlt_le_weak.
      eapply Qle_lt_trans; eauto.
    + destruct (IH a) as (m & Hm & Hin & Hall).
      exists m. split; [exact Hm|]. split.
      * destruct Hin as [<- | Hin]; [left; reflexivity | right; right; exact Hin].
      * inversion Hall as [|? ? Ha Hrest]; subst.
        constructor; [exact Ha|]. constructor; [|exact Hrest].
        apply Qlt_b_false in E. eapply Qle_trans; eauto.
Qed.

Lemma py_sum_finite acc qs :
  exists s,
    py_sum (VFloat (Fin acc)) (map (fun q => VFloat (Fin q)) qs)
    = inr (VFloat (Fin s)) /\
    (s == acc + fold_right Qplus 0 qs)%Q.
Proof.
  revert acc. induction qs as [|x qs IH]; intros acc; cbn [map py_sum].
  - exists acc. split; [reflexivity|]. cbn. lra.
  - cbn [py_add to_int to_ieee float_like is_np orb ieee_sub ieee_neg].
    destruct (IH (acc - - x)%Q) as (s & Hs & E).
    exists s. split; [exact Hs|]. rewrite E. cbn. lra.
Qed.

(** X7 -- For a user with at least one record and finite costs, the
    statistics of the history tab are consistent with the table above them:
    the latest is the cost of the first row, the highest and the lowest are
    costs of the history, and every cost, the latest among them, lies
    between the lowest and the highest. *)
Theorem history_statistics_bounds db user first rest :
  get_user_predictions db user = first :: rest ->
  Forall finite_cost (first :: rest) ->
  exists latest highest lowest average,
    history_tab db user =
      ([HistoryCount (S (length rest));
        Dataframe (map row_of (first :: rest));
        Shown (Metric "Latest Cost" (VFloat (Fin latest)) None);
        Shown (Metric "Highest Cost" (VFloat (Fin highest)) None);
        Shown (Metric "Lowest Cost" (VFloat (Fin lowest)) None);
        Shown (Metric "Average Cost" (VFloat average) None)], None) /\
    cost_of first = VFloat (Fin latest) /\
    In (VFloat (Fin highest)) (map cost_of (first :: rest)) /\
    In (VFloat (Fin lowest)) (map cost_of (first :: rest)) /\
    Forall (fun r => exists q, cost_of r = VFloat (Fin q) /\
                               (lowest <= q <= highest)%Q) (first :: rest) /\
    (lowest <= latest <= highest)%Q.
Proof.
  intros E Hfin.
  assert (Hf : Forall float_cost (first :: rest)).
  { eapply List.Forall_impl; [|exact Hfin]. intros r (q & Hq). eexists; eauto. }
  inversion Hfin as [|? ? [a Ha] Hrest]; subst.
  destruct (finite_costs_list _ Hrest) as (qs & Hqs & Hlen).
  unfold history_tab. rewrite E. rewrite (table_rows_floats _ Hf).
  unfold statistics. rewrite Ha, Hqs. cbn [format_float].
  destruct (py_max_list_finite a qs) as (hi & -> & Hhi_in & Hhi).
  destruct (py_min_list_finite a qs) as (lo & -> & Hlo_in & Hlo).
  cbn [py_sum py_add to_int to_ieee float_like is_np orb ieee_sub ieee_neg].
  destruct (py_sum_finite (inject_Z 0 - - a)%Q qs) as (s & -> & Hs).
  rewrite average_float by (cbn [length]; lia).
  cbn [ieee_div].
  rewrite Qzero_b_positive by (cbn [length]; lia).
  cbn [length]. rewrite List.length_map.
  exists a, hi, lo, (Fin (s / inject_Z (Z.of_nat (S (length qs)))))%Q.
  split; [rewrite Hlen; reflexivity|].
  split; [reflexivity|].
  assert (Hcosts : map cost_of (first :: rest)
                   = map (fun q => VFloat (Fin q)) (a :: qs)).
  { cbn [map]. rewrite Ha, Hqs. reflexivity. }
  assert (Hbetween : Forall (fun q => lo <= q <= hi)%Q (a :: qs)).
  { rewrite List.Forall_forall in *. intros q Hq. split; auto. }
  split; [rewrite Hcosts;
          apply (in_map (fun q => VFloat (Fin q))); exact Hhi_in|].
  split; [rewrite Hcosts;
          apply (in_map (fun q => VFloat (Fin q))); exact Hlo_in|].
  split.
  { clear - Hbetween Hcosts.
    revert Hcosts Hbetween. generalize (a :: qs). generalize (first :: rest).
    induction l as [|r l IH]; intros [|q l0] Hc Hb; try discriminate;
      constructor.
    - cbn in Hc. inversion Hc. inversion Hb; subst. eauto.
    - cbn in Hc. inversion Hc. inversion Hb; subst. eapply IH; eauto. }
  inversion Hbetween; subst. assumption.
Qed.

Lemma history_statistics_bounds_witness :
  Forall finite_cost (get_user_predictions example_ledger "alice") /\
  exists latest highest lowest,
    cost_of (31, "male", 26%Q, 0, 0, "northwest", VFloat (Fin (inject_Z 0)),
             200) = VFloat (Fin latest) /\
    In (VFloat (Fin highest))
       (map cost_of (get_user_predictions example_ledger "alice")) /\
    (lowest <= latest <= highest)%Q.
Proof.
  assert (Hfin : Forall finite_cost
                   (get_user_predictions example_ledger "alice"))
    by (repeat constructor; eexists; reflexivity).
  split; [exact Hfin|].
  destruct (history_statistics_bounds example_ledger "alice"
              (31, "male", 26%Q, 0, 0, "northwest", VFloat (Fin (inject_Z 0)),
               200)
              [(30, "male", 25%Q, 0, 0, "northwest", VFloat (Fin 4200), 100)]
              eq_refl Hfin)
    as (latest & highest & lowest & average & _ & H1 & H2 & _ & _ & H3).
  exists latest, highest, lowest. auto.
Defined.

(** ** The login page *)

Lemma verify_user_taken db u p :
  verify_user db u p = true -> username_taken db u = true.
Proof.
  unfold verify_user, select_user, username_taken, fetchone.
  destruct (List.filter _ (users db)) as [|r rest] eqn:E; [discriminate|].
  intros _.
  assert (Hin : In r (List.filter
                        (fun r => String.eqb (u_username r) u
                                  && String.eqb (u_password r)
                                       (hash_password p)) (users db)))
    by (rewrite E; left; reflexivity).
  apply List.filter_In in Hin as [Hin Hb].
  apply andb_prop in Hb as [Hb _].
  apply existsb_exists. exists r. auto.
Qed.

Lemma verify_after_create db u p now db' :
  create_user db u p now = (true, db') -> verify_user db' u p = true.
Proof.
  intros Hc.
  destruct (create_user_true _ _ _ _ _ Hc) as (_ & row & Hu & _ & Hn & Hp & _).
  unfold verify_user, select_user. rewrite Hu, List.filter_app. cbn.
  rewrite Hn, Hp, !String.eqb_refl. cbn.
  destruct (List.filter _ (users db)); reflexivity.
Qed.

(** X8 -- The Sign Up button never logs anyone in and touches nothing but
    the users table; it leaves the table as it was when a field is empty,
    the confirmation differs, the password has fewer than six characters or
    the username is taken, and otherwise creates the account, with which
    [verify_user] then succeeds. *)
Theorem signup_guards u p confirm now s :
  a_user (fst (on_signup u p confirm now s)) = a_user s /\
  a_heap (fst (on_signup u p confirm now s)) = a_heap s /\
  a_last_prediction (fst (on_signup u p confirm now s))
    = a_last_prediction s /\
  a_last_formdata (fst (on_signup u p confirm now s)) = a_last_formdata s /\
  predictions (a_db (fst (on_signup u p confirm now s)))
    = predictions (a_db s) /\
  snd (on_signup u p confirm now s) = Stopped /\
  (u = "" \/ p = "" \/ p <> confirm \/ (py_len p < 6)%nat \/
   username_taken (a_db s) u = true ->
   a_db (fst (on_signup u p confirm now s)) = a_db s) /\
  (u <> "" -> p <> "" -> p = confirm -> (6 <= py_len p)%nat ->
   username_taken (a_db s) u = false ->
   a_db (fst (on_signup u p confirm now s))
     = snd (create_user (a_db s) u p now) /\
   verify_user (a_db (fst (on_signup u p confirm now s))) u p = true).
Proof.
  unfold on_signup.
  destruct (String.eqb_spec u "") as [Eu|Eu];
    [cbn; repeat split; auto; intros; contradiction|].
  destruct (String.eqb_spec p "") as [Ep|Ep];
    [cbn; repeat split; auto; intros; contradiction|].
  cbn [orb].
  destruct (String.eqb_spec p confirm) as [Ec|Ec];
    [|cbn; repeat split; auto; intros; contradiction].
  cbn [negb].
  destruct (py_len p <? 6)%nat eqn:El.
  { apply Nat.ltb_lt in El. cbn. repeat split; auto; intros; lia. }
  apply Nat.ltb_ge in El.
  destruct (create_user (a_db s) u p now) as [created db] eqn:Ecr.
  assert (Hpred : predictions db = predictions (a_db s)).
  { unfold create_user, insert_user in Ecr.
    destruct (username_taken (a_db s) u); inversion Ecr; reflexivity. }
  destruct created; cbn [fst snd show set_database a_user a_heap a_db
                         a_last_prediction a_last_formdata].
  - pose proof (create_user_true _ _ _ _ _ Ecr) as (Hfree & _).
    pose proof (verify_after_create _ _ _ _ _ Ecr) as Hv.
    repeat split; auto.
    intros [H|[H|[H|[H|H]]]]; try contradiction; try lia; congruence.
  - assert (Hsame : db = a_db s).
    { unfold create_user, insert_user in Ecr.
      destruct (username_taken (a_db s) u); inversion Ecr; reflexivity. }
    assert (Htaken : username_taken (a_db s) u = true).
    { unfold create_user, insert_user in Ecr.
      destruct (username_taken (a_db s) u); [reflexivity|discriminate]. }
    subst db. repeat split; auto; intros; congruence.
Qed.

Lemma signup_guards_witness :
  (py_len "abc" < 6)%nat /\
  a_db (fst (on_signup "alice" "abc" "abc" 0 initial_state))
    = a_db initial_state /\
  verify_user
    (a_db (fst (on_signup "alice" "secret1" "secret1" 0 initial_state)))
    "alice" "secret1" = true.
Proof.
  assert (Hshort : (py_len "abc" < 6)%nat) by (cbn; lia).
  destruct (signup_guards "alice" "abc" "abc" 0 initial_state)
    as (_ & _ & _ & _ & _ & _ & Hkeep & _).
  destruct (signup_guards "alice" "secret1" "secret1" 0 initial_state)
    as (_ & _ & _ & _ & _ & _ & _ & Hmake).
  split; [exact Hshort|]. split.
  - apply Hkeep. right. right. right. left. exact Hshort.
  - apply Hmake; try discriminate; try reflexivity. cbn. lia.
Defined.

(** X9 -- The Login button changes neither the database nor the baseline;
    it logs in, as the username typed, only when both fields are non-empty
    and [verify_user] accepts them, which needs an account of that name, and
    otherwise leaves the session as it was. *)
Theorem login_requires_account u p s :
  a_db (fst (on_login u p s)) = a_db s /\
  a_heap (fst (on_login u p s)) = a_heap s /\
  a_last_prediction (fst (on_login u p s)) = a_last_prediction s /\
  a_last_formdata (fst (on_login u p s)) = a_last_formdata s /\
  ((snd (on_login u p s) = Rerun /\ a_user (fst (on_login u p s)) = Some u /\
    u <> "" /\ p <> "" /\ verify_user (a_db s) u p = true /\
    username_taken (a_db s) u = true) \/
   (snd (on_login u p s) = Stopped /\
    a_user (fst (on_login u p s)) = a_user s /\
    (u = "" \/ p = "" \/ verify_user (a_db s) u p = false))).
Proof.
  unfold on_login.
  destruct (String.eqb_spec u "") as [Eu|Eu];
    [cbn; repeat split; auto; right; auto|].
  destruct (String.eqb_spec p "") as [Ep|Ep];
    [cbn; repeat split; auto; right; auto|].
  cbn [negb andb].
  destruct (verify_user (a_db s) u p) eqn:Ev; cbn.
  - repeat split; auto. left. repeat split; auto.
    apply (verify_user_taken _ _ _ Ev).
  - repeat split; auto. right. auto.
Qed.

(** The two presses that succeed on the login page. *)
Lemma on_signup_creates u p now s :
  u <> "" ->
  (6 <= py_len p)%nat ->
  username_taken (a_db s) u = false ->
  on_signup u p p now s
  = (show (Shown (Success "Account created! Please login above."))
       (set_database (snd (create_user (a_db s) u p now)) s), Stopped) /\
  verify_user (snd (create_user (a_db s) u p now)) u p = true.
Proof.
  intros Hu Hlen Hfree.
  assert (Hp : p <> "") by (intros ->; cbn in Hlen; lia).
  unfold on_signup.
  destruct (String.eqb_spec u "") as [E|_]; [contradiction|].
  destruct (String.eqb_spec p "") as [E|_]; [contradiction|].
  rewrite String.eqb_refl. cbn [orb negb].
  destruct (py_len p <? 6)%nat eqn:El; [apply Nat.ltb_lt in El; lia|].
  destruct (create_user (a_db s) u p now) as [created db] eqn:Ecr.
  assert (created = true).
  { unfold create_user, insert_user in Ecr. rewrite Hfree in Ecr.
    inversion Ecr; reflexivity. }
  subst created. cbn [snd]. split; [reflexivity|].
  apply (verify_after_create _ _ _ _ _ Ecr).
Qed.

Lemma on_login_accepts u p s :
  u <> "" ->
  p <> "" ->
  verify_user (a_db s) u p = true ->
  on_login u p s
  = (show (Shown (Success "Login successful! Redirecting..."))
       (set_user (Some u) s), Rerun).
Proof.
  intros Hu Hp Hv. unfold on_login. rewrite Hv.
  destruct (String.eqb_spec u "") as [E|_]; [contradiction|].
  destruct (String.eqb_spec p "") as [E|_]; [contradiction|].
  reflexivity.
Qed.

Section ScriptFacts.

Variable artifacts : option ((list ieee -> list ieee) * (list ieee -> ieee)).

(** A run with no button pressed changes only what is shown. *)
Lemma script_no_click now s :
  a_db (fst (script artifacts NoClick now s)) = a_db s /\
  a_heap (fst (script artifacts NoClick now s)) = a_heap s /\
  a_user (fst (script artifacts NoClick now s)) = a_user s /\
  a_last_prediction (fst (script artifacts NoClick now s))
    = a_last_prediction s /\
  a_last_formdata (fst (script artifacts NoClick now s)) = a_last_formdata s /\
  snd (script artifacts NoClick now s) <> Rerun.
Proof.
  unfold script, show_login_page.
  destruct (a_user s) as [u|] eqn:Eu; [|cbn; repeat split; auto; discriminate].
  destruct artifacts as [[scaler model]|];
    [|cbn; repeat split; auto; discriminate].
  unfold tabs.
  destruct (a_last_prediction s) eqn:Ep;
    destruct (history_tab _ u) as [shown_rows [e|]];
    cbn; repeat split; auto; discriminate.
Qed.

(** X10 -- Signing up and then logging in works: from a logged-out
    session, a Sign Up with a free username, a password of at least six
    characters and a matching confirmation leaves the session logged out,
    and a Login with the same username and password then logs that user
    in. *)
Theorem signup_then_login u p now now' s :
  a_user s = None ->
  u <> "" ->
  (6 <= py_len p)%nat ->
  username_taken (a_db s) u = false ->
  a_user (fst (interact artifacts (SignupClick u p p) now s)) = None /\
  a_user
    (fst (interact artifacts (LoginClick u p) now'
            (fst (interact artifacts (SignupClick u p p) now s))))
  = Some u.
Proof.
  intros Hout Hu Hlen Hfree.
  assert (Hp : p <> "") by (intros ->; cbn in Hlen; lia).
  destruct (on_signup_creates u p now s Hu Hlen Hfree) as [Hsign Hv].
  assert (Hpress : interact artifacts (SignupClick u p p) now s
                   = on_signup u p p now s).
  { unfold interact, script. rewrite Hout. cbn [show_login_page].
    rewrite Hsign. reflexivity. }
  rewrite Hpress, Hsign. cbn [fst].
  set (s1 := show _ (set_database _ s)).
  assert (Hout1 : a_user s1 = None) by exact Hout.
  split; [exact Hout1|].
  unfold interact, script at 1. rewrite Hout1. cbn [show_login_page].
  rewrite (on_login_accepts u p s1 Hu Hp Hv).
  destruct (script_no_click now'
              (show (Shown (Success "Login successful! Redirecting..."))
                 (set_user (Some u) s1)))
    as (_ & _ & Hsame & _).
  rewrite Hsame. reflexivity.
Qed.

End ScriptFacts.

Lemma signup_then_login_witness :
  a_user initial_state = None /\
  a_user
    (fst (interact example_artifacts (LoginClick "alice" "secret1") 2
            (fst (interact example_artifacts
                    (SignupClick "alice" "secret1" "secret1") 1
                    initial_state))))
  = Some "alice".
Proof.
  split; [reflexivity|].
  apply (signup_then_login example_artifacts "alice" "secret1" 1 2
           initial_state).
  - reflexivity.
  - discriminate.
  - cbn. lia.
  - reflexivity.
Defined.

(** ** Runs of the script *)

Lemma create_user_effect db u p now :
  predictions (snd (create_user db u p now)) = predictions db /\
  forall u', username_taken db u' = true ->
             username_taken (snd (create_user db u p now)) u' = true.
Proof.
  unfold create_user, insert_user.
  destruct (username_taken db u); cbn [snd]; split; auto.
  intros u' H. unfold username_taken in *. cbn [users].
  rewrite existsb_snoc, H. reflexivity.
Qed.

Lemma clamp_stored raw :
  exists x,
    real_affinity (if ieee_lt (Fin 0) raw then VNp raw else VInt 0)
    = VFloat x /\ ieee_nonneg x = true.
Proof.
  pose proof (clamp_nonneg raw) as H. unfold py_nonneg in H.
  destruct (ieee_lt (Fin 0) raw); cbn in *; eexists; split;
    try reflexivity; exact H.
Qed.

Lemma history_float_costs db user :
  Forall cost_ok (predictions db) ->
  Forall float_cost (get_user_predictions db user).
Proof.
  intros H. apply List.Forall_forall. intros r Hr.
  unfold get_user_predictions in Hr.
  apply in_map_iff in Hr as (row & <- & Hin).
  apply (Permutation_in _ (order_perm _)) in Hin.
  apply List.filter_In in Hin as [Hin _].
  rewrite List.Forall_forall in H. destruct (H row Hin) as (x & Hx & _).
  exists x. exact Hx.
Qed.

Lemma history_tab_on_floats db user :
  Forall float_cost (get_user_predictions db user) ->
  snd (history_tab db user) = None.
Proof.
  intros Hf. unfold history_tab.
  destruct (get_user_predictions db user) as [|first rest] eqn:E;
    [reflexivity|].
  rewrite (table_rows_floats _ Hf).
  inversion Hf as [|? ? [x Hx] Hrest]; subst.
  pose proof (costs_floats _ Hrest) as Hc.
  unfold statistics. rewrite Hx. cbn [format_float].
  destruct (py_max_list_float x _ Hc) as (hi & ->).
  destruct (py_min_list_float x _ Hc) as (lo & ->).
  cbn [py_sum py_add to_int to_ieee float_like is_np orb].
  destruct (py_sum_float (ieee_sub (Fin (inject_Z 0)) (ieee_neg x)) _ Hc)
    as (s & ->).
  rewrite average_float by (cbn [length]; lia).
  reflexivity.
Qed.

Section Runs.

Variable scaler : list ieee -> list ieee.
Variable model : list ieee -> ieee.

(** The tabs after "Predict Cost" on a valid form. *)
Lemma tabs_predict f now u s feats :
  valid_form f = true ->
  spec_features f = Some feats ->
  let cost := if ieee_lt (Fin 0) (model (scaler feats))
              then VNp (model (scaler feats)) else VInt 0 in
  let db' := save_prediction (a_db s) u (f_age f) (f_sex f) (f_bmi f)
               (f_children f) (if f_smoker f then 1 else 0) (f_region f)
               cost now in
  tabs scaler model (PredictClick f) now u s =
    ({| a_db := db';
        a_heap := (a_heap s ++ [formdata f])%list;
        a_user := a_user s;
        a_last_prediction := Some cost;
        a_last_formdata := Some (length (a_heap s));
        a_out := ((a_out s ++ [Shown (ModelCall (scaler feats));
                               Shown (ResultCard cost)])
                  ++ fst (history_tab db' u))%list |},
     match snd (history_tab db' u) with
     | Some e => Raised e
     | None => Completed
     end).
Proof.
  intros Hv Hf cost db'. unfold tabs, run_handler.
  rewrite (predict_cost_run scaler model now f (to_world u s) feats Hv Hf).
  cbn [to_world of_world w_db w_heap w_session w_log username
       last_prediction last_formdata a_db a_heap a_user a_last_prediction
       a_last_formdata a_out app map].
  fold cost. fold db'.
  destruct (history_tab db' u) as [rows [e|]]; reflexivity.
Qed.

(** The tabs after a scenario button, on a well-formed baseline. *)
Lemma tabs_scenario b now u s :
  baseline_ok s ->
  exists added shown_events,
    tabs scaler model (ScenarioClick b) now u s =
      ({| a_db := a_db s;
          a_heap := (a_heap s ++ added)%list;
          a_user := a_user s;
          a_last_prediction := a_last_prediction s;
          a_last_formdata := a_last_formdata s;
          a_out := ((a_out s ++ map Shown shown_events)
                    ++ fst (history_tab (a_db s) u))%list |},
       match snd (history_tab (a_db s) u) with
       | Some e => Raised e
       | None => Completed
       end).
Proof.
  intros Hb. unfold baseline_ok in Hb. unfold tabs, run_handler.
  destruct (a_last_prediction s) as [cost|] eqn:Ep;
    destruct (a_last_formdata s) as [base|] eqn:Ef; try contradiction.
  - destruct Hb as (f & c & Hv & Hh & Hc).
    assert (Hcase : (b = quit_smoking /\ f_smoker f = false) \/
                    (b = quit_smoking -> f_smoker f = true)).
    { destruct b; try (right; discriminate).
      destruct (f_smoker f); [right|left]; auto. }
    destruct Hcase as [[-> Hs] | Hs].
    + rewrite (quit_smoking_no_change scaler model (to_world u s) base
                 (formdata f) (VBool false) cost);
        cbn [to_world w_session w_heap last_prediction last_formdata];
        auto; [|rewrite formdata_smoker, Hs; reflexivity].
      exists [], [Success "You're already a non-smoker!"].
      cbn [of_world set_log to_world w_db w_heap w_session w_log username
           last_prediction last_formdata a_db a_heap a_user
           a_last_prediction a_last_formdata a_out app map].
      rewrite app_nil_r, Ep, Ef.
      destruct (history_tab (a_db s) u) as [rows [e|]]; reflexivity.
    + destruct (spec_transform_valid b f Hv) as (f' & feats & Ht & _ & Hf).
      rewrite (scenario_run scaler model b (to_world u s) base f cost c f'
                 feats Hv);
        cbn [to_world w_session w_heap last_prediction last_formdata];
        auto.
      exists [modified_dict b f],
        (ModelCall (scaler feats)
           :: shown b f (model (scaler feats))
                (delta b c (model (scaler feats)))
                (ieee_mul (ieee_div (delta b c (model (scaler feats))) c)
                   (Fin 100))).
      cbn [of_world set_log set_heap to_world w_db w_heap w_session w_log
           username last_prediction last_formdata a_db a_heap a_user
           a_last_prediction a_last_formdata a_out app map].
      rewrite Ep, Ef.
      destruct (history_tab (a_db s) u) as [rows [e|]]; reflexivity.
  - exists [], [Info "Make a prediction first in the Predictor tab to run scenarios"].
    unfold scenarios_tab.
    cbn [to_world w_session last_prediction]. rewrite Ep.
    unfold emit, mbind, M_bind, mret, M_ret.
    cbn. rewrite ?app_nil_r, ?Ep, ?Ef.
    destruct (history_tab (a_db s) u) as [rows [e|]]; reflexivity.
Qed.

(** The tabs when neither "Predict Cost" nor a scenario was pressed. *)
Lemma tabs_idle c now u s :
  (forall f, c <> PredictClick f) ->
  (forall b, c <> ScenarioClick b) ->
  exists shown_events,
    tabs scaler model c now u s =
      ({| a_db := a_db s; a_heap := a_heap s; a_user := a_user s;
          a_last_prediction := a_last_prediction s;
          a_last_formdata := a_last_formdata s;
          a_out := ((a_out s ++ shown_events)
                    ++ fst (history_tab (a_db s) u))%list |},
       match snd (history_tab (a_db s) u) with
       | Some e => Raised e
       | None => Completed
       end).
Proof.
  intros Hp Hs. unfold tabs.
  destruct c; try (exfalso; eapply Hp; reflexivity);
    try (exfalso; eapply Hs; reflexivity).
  all: destruct (a_last_prediction s) eqn:Ep;
    [exists [] | eexists [_]];
    cbn [show a_db a_heap a_user a_last_prediction a_last_formdata a_out];
    rewrite ?app_nil_r, ?Ep;
    destruct (history_tab (a_db s) u) as [rows [e|]]; reflexivity.
Qed.

End Runs.

(** ** What every run keeps *)

Lemma consistent_frame s s' :
  consistent s ->
  a_db s' = a_db s ->
  (forall u, a_user s' = Some u -> username_taken (a_db s) u = true) ->
  a_last_prediction s' = a_last_prediction s ->
  a_last_formdata s' = a_last_formdata s ->
  (forall l d, a_heap s !! l = Some d -> a_heap s' !! l = Some d) ->
  consistent s'.
Proof.
  intros (Hd & Hc & Hk & Hu & Hb) Edb Huser Ep Ef Hheap.
  unfold consistent. rewrite Edb.
  split; [exact Hd|]. split; [exact Hc|]. split; [exact Hk|].
  split; [exact Huser|].
  unfold baseline_ok in *. rewrite Ep, Ef.
  destruct (a_last_prediction s); destruct (a_last_formdata s); auto.
  destruct Hb as (f & c & Hv & Hh & Hcost).
  exists f, c. auto.
Qed.

Lemma heap_grows (h added : list (gmap string pyval)) l d :
  h !! l = Some d -> ((h ++ added)%list) !! l = Some d.
Proof.
  intros H. rewrite lookup_app_l; [exact H | eapply lookup_lt_Some; eauto].
Qed.

Lemma history_never_raises db user :
  Forall cost_ok (predictions db) -> snd (history_tab db user) = None.
Proof.
  intros H. apply history_tab_on_floats, history_float_costs. exact H.
Qed.

Section Invariant.

Variable artifacts : option ((list ieee -> list ieee) * (list ieee -> ieee)).

Lemma consistent_start : consistent initial_state.
Proof.
  unfold consistent, initial_state, distinct_rows, baseline_ok. cbn.
  repeat split; try apply NoDup_nil_2; try constructor. discriminate.
Qed.

Lemma login_page_consistent c now s :
  consistent s ->
  a_user s = None ->
  consistent (fst (show_login_page c now s)) /\
  forall e, snd (show_login_page c now s) <> Raised e.
Proof.
  intros Hs Hout. pose proof Hs as (Hd & Hc & Hk & Hu & Hb).
  destruct c; cbn [show_login_page fst snd];
    try (split; [exact Hs | discriminate]).
  - unfold on_login.
    destruct (negb (String.eqb login_username "")
              && negb (String.eqb login_password ""));
      [|split; [|discriminate];
        apply (consistent_frame s); cbn; auto].
    destruct (verify_user (a_db s) login_username login_password) eqn:Ev;
      (split; [|discriminate]); apply (consistent_frame s); cbn; auto.
    intros u E. inversion E; subst u.
    apply (verify_user_taken _ _ _ Ev).
  - unfold on_signup.
    destruct (String.eqb signup_username "" || String.eqb signup_password "");
      [split; [|discriminate]; apply (consistent_frame s); cbn; auto|].
    destruct (negb (String.eqb signup_password signup_password_confirm));
      [split; [|discriminate]; apply (consistent_frame s); cbn; auto|].
    destruct (py_len signup_password <? 6)%nat;
      [split; [|discriminate]; apply (consistent_frame s); cbn; auto|].
    pose proof (create_user_distinct (a_db s) signup_username
                  signup_password now Hd) as Hd'.
    pose proof (create_user_effect (a_db s) signup_username signup_password
                  now) as (Hp' & Hmono).
    destruct (create_user (a_db s) signup_username signup_password now)
      as [created db] eqn:Ecr.
    cbn [snd] in Hd', Hp', Hmono.
    assert (Hgoal : consistent (set_database db s)).
    { unfold consistent. cbn [set_database a_db a_user]. rewrite Hp'.
      split; [exact Hd'|]. split; [exact Hc|]. split.
      - eapply List.Forall_impl; [|exact Hk]. intros r Hr. apply Hmono, Hr.
      - split; [intros u E; congruence|]. exact Hb. }
    destruct created; cbn [fst snd]; (split; [|discriminate]);
      apply (consistent_frame (set_database db s)); cbn; auto;
      intros u E; congruence.
Qed.

Lemma tabs_consistent scaler model c now u s :
  consistent s ->
  a_user s = Some u ->
  offered c = true ->
  consistent (fst (tabs scaler model c now u s)) /\
  forall e, snd (tabs scaler model c now u s) <> Raised e.
Proof.
  intros Hs Hin Hoff. pose proof Hs as (Hd & Hc & Hk & Hu & Hb).
  assert (Hcase : (exists f, c = PredictClick f) \/
                  (exists b, c = ScenarioClick b) \/
                  ((forall f, c <> PredictClick f) /\
                   (forall b, c <> ScenarioClick b))).
  { destruct c; eauto; right; right; split; discriminate. }
  destruct Hcase as [(f & ->) | [(b & ->) | (Hnp & Hns)]].
  - cbn in Hoff.
    destruct (spec_features_valid f Hoff) as (rc & _ & Hf).
    rewrite (tabs_predict scaler model f now u s _ Hoff Hf).
    cbn [fst snd].
    set (raw := model (scaler _)).
    set (cost := if ieee_lt (Fin 0) raw then VNp raw else VInt 0).
    set (db' := save_prediction _ _ _ _ _ _ _ _ _ _).
    assert (Hc' : Forall cost_ok (predictions db')).
    { unfold db', save_prediction. cbn [predictions].
      apply Forall_app. split; [exact Hc|].
      constructor; [|constructor]. unfold cost_ok. cbn [p_prediction].
      apply clamp_stored. }
    split.
    + unfold consistent.
      cbn [a_db a_heap a_user a_last_prediction a_last_formdata].
      split; [apply save_prediction_distinct; exact Hd|].
      split; [exact Hc'|]. split.
      * unfold db', save_prediction. cbn [predictions].
        apply Forall_app. split; [exact Hk|].
        constructor; [|constructor]. cbn [p_username]. apply Hu, Hin.
      * split; [exact Hu|]. unfold baseline_ok.
        cbn [a_heap a_last_prediction a_last_formdata].
        exists f, (if ieee_lt (Fin 0) raw then raw else Fin (inject_Z 0)).
        split; [exact Hoff|].
        split; [apply heap_alloc_lookup|].
        unfold cost. destruct (ieee_lt (Fin 0) raw); reflexivity.
    + intros e. rewrite (history_never_raises db' u Hc'). discriminate.
  - destruct (tabs_scenario scaler model b now u s Hb)
      as (added & evs & ->).
    cbn [fst snd]. split.
    + apply (consistent_frame s);
        cbn [a_db a_heap a_user a_last_prediction a_last_formdata]; auto.
      intros l d. apply heap_grows.
    + intros e. rewrite (history_never_raises _ u Hc). discriminate.
  - destruct (tabs_idle scaler model c now u s Hnp Hns) as (evs & ->).
    cbn [fst snd]. split.
    + apply (consistent_frame s);
        cbn [a_db a_heap a_user a_last_prediction a_last_formdata]; auto.
    + intros e. rewrite (history_never_raises _ u Hc). discriminate.
Qed.

Lemma script_consistent c now s :
  consistent s ->
  offered c = true ->
  consistent (fst (script artifacts c now s)) /\
  forall e, snd (script artifacts c now s) <> Raised e.
Proof.
  intros Hs Hoff. unfold script.
  destruct (a_user s) as [u|] eqn:Eu;
    [|apply login_page_consistent; auto].
  assert (Hlogout :
            consistent (show (Shown (Success "Logged out successfully!"))
                          (set_user None s))).
  { apply (consistent_frame s); cbn; auto. discriminate. }
  assert (Hnone :
            consistent
              (show (ShowError "Model not found. Please train the model first using `python train_model.py`") s)).
  { apply (consistent_frame s); cbn; auto.
    destruct Hs as (_ & _ & _ & Hu & _). exact Hu. }
  destruct c; try (split; [exact Hlogout | discriminate]);
    destruct artifacts as [[scaler model]|];
    try (split; [exact Hnone | discriminate]);
    apply tabs_consistent; auto.
Qed.

Lemma interact_consistent c now s :
  consistent s ->
  offered c = true ->
  consistent (fst (interact artifacts c now s)) /\
  forall e, snd (interact artifacts c now s) <> Raised e.
Proof.
  intros Hs Hoff. unfold interact.
  destruct (script_consistent c now s Hs Hoff) as [H1 H2].
  destruct (script artifacts c now s) as [s1 o]. cbn [fst snd] in *.
  destruct o; try (split; [exact H1 | exact H2]).
  apply script_consistent; auto.
Qed.

Lemma reachable_consistent s : reachable artifacts s -> consistent s.
Proof.
  induction 1 as [|s c now _ IH Hoff|s _ IH]; [apply consistent_start| |].
  - apply interact_consistent; auto.
  - destruct IH as (Hd & Hc & Hk & _ & _).
    unfold consistent, new_session, baseline_ok. cbn.
    split; [exact Hd|]. split; [exact Hc|]. split; [exact Hk|].
    split; [intros u E; discriminate | exact I].
Qed.

End Invariant.

(** X11 -- In every state a session can reach, no two accounts share a
    username and no two rows a rowid, every stored cost is a float that is
    not negative, every record carries the username of an existing account,
    and the user logged in has an account.  (The model's outputs are
    [float64] scalars, which [save_prediction] stores as floats.) *)
Theorem stored_records_sound
    (artifacts : option ((list ieee -> list ieee) * (list ieee -> ieee))) s :
  reachable artifacts s ->
  distinct_rows (a_db s) /\
  (forall r, In r (predictions (a_db s)) ->
     (exists x, p_prediction r = VFloat x /\ ieee_nonneg x = true) /\
     username_taken (a_db s) (p_username r) = true) /\
  (forall u, a_user s = Some u -> username_taken (a_db s) u = true).
Proof.
  intros Hr.
  destruct (reachable_consistent artifacts s Hr) as (Hd & Hc & Hk & Hu & _).
  split; [exact Hd|]. split; [|exact Hu].
  intros r Hin. rewrite List.Forall_forall in Hc, Hk.
  split; [apply (Hc r Hin) | apply (Hk r Hin)].
Qed.

(** X12 -- In every state a session can reach, the baseline, when there is
    one, is the dictionary of a form within the widget ranges together with
    a numeric cost, and no press of a button the page offers ends in an
    exception: not in the handlers (no missing key, no division by zero) and
    not in the history tab.  (The model's outputs are [float64] scalars.) *)
Theorem no_press_raises
    (artifacts : option ((list ieee -> list ieee) * (list ieee -> ieee)))
    s c now :
  reachable artifacts s ->
  offered c = true ->
  baseline_ok s /\
  forall e, snd (interact artifacts c now s) <> Raised e.
Proof.
  intros Hr Hoff.
  pose proof (reachable_consistent artifacts s Hr) as Hs.
  split; [apply Hs|].
  apply (interact_consistent artifacts c now s Hs Hoff).
Qed.



Lemma logged_in_reachable : reachable example_artifacts logged_in.
Proof.
  unfold logged_in, signed_up.
  apply reachable_press; [|reflexivity].
  apply reachable_press; [|reflexivity].
  apply reachable_start.
Qed.

Lemma predicted_reachable : reachable example_artifacts predicted.
Proof.
  unfold predicted. apply reachable_press; [|reflexivity].
  apply logged_in_reachable.
Qed.

Lemma stored_records_sound_witness :
  distinct_rows (a_db predicted) /\
  (forall r, In r (predictions (a_db predicted)) ->
     (exists x, p_prediction r = VFloat x /\ ieee_nonneg x = true) /\
     username_taken (a_db predicted) (p_username r) = true) /\
  (forall u, a_user predicted = Some u ->
             username_taken (a_db predicted) u = true).
Proof.
  exact (stored_records_sound example_artifacts predicted
           predicted_reachable).
Defined.

Lemma no_press_raises_witness :
  baseline_ok predicted /\
  forall e,
    snd (interact example_artifacts (ScenarioClick lower_bmi) 40 predicted)
    <> Raised e.
Proof.
  exact (no_press_raises example_artifacts predicted
           (ScenarioClick lower_bmi) 40 predicted_reachable eq_refl).
Defined.


(** ** Sessions and baselines *)

Section Baselines.

Variable scaler : list ieee -> list ieee.
Variable model : list ieee -> ieee.

(** X14 -- Logging out does not discard the baseline: after Logout and a
    Login of some account in the same session, the database, the
    dictionaries and the session's [last_prediction] and [last_formdata] are
    those the previous user left, so the scenarios of the new user start
    from the previous user's profile and cost. *)
Theorem logout_keeps_baseline now now' u u' p' s :
  a_user s = Some u ->
  u' <> "" ->
  p' <> "" ->
  verify_user (a_db s) u' p' = true ->
  a_user (fst (interact (Some (scaler, model)) LogoutClick now s)) = None /\
  a_user
    (fst (interact (Some (scaler, model)) (LoginClick u' p') now'
            (fst (interact (Some (scaler, model)) LogoutClick now s))))
    = Some u' /\
  to_world u'
    (fst (interact (Some (scaler, model)) (LoginClick u' p') now'
            (fst (interact (Some (scaler, model)) LogoutClick now s))))
  = {| w_db := a_db s; w_heap := a_heap s;
       w_session := {| username := u';
                       last_prediction := a_last_prediction s;
                       last_formdata := a_last_formdata s |};
       w_log := [] |}.
Proof.
  intros Hin Hu Hp Hv.
  assert (Hout : interact (Some (scaler, model)) LogoutClick now s
                 = (show (Shown (Success "Logged out successfully!"))
                      (set_user None s), Stopped)).
  { unfold interact, script. rewrite Hin. reflexivity. }
  rewrite Hout. cbn [fst]. split; [reflexivity|].
  set (s1 := show _ (set_user None s)).
  assert (Hlog : script (Some (scaler, model)) (LoginClick u' p') now' s1
                 = (show (Shown (Success "Login successful! Redirecting..."))
                      (set_user (Some u') s1), Rerun)).
  { unfold script. cbn [s1 show set_user a_user show_login_page].
    apply on_login_accepts; auto. }
  unfold interact. rewrite Hlog.
  destruct (script_no_click (Some (scaler, model)) now'
              (show (Shown (Success "Login successful! Redirecting..."))
                 (set_user (Some u') s1)))
    as (Hdb & Hheap & Huser & Hlp & Hlf & _).
  destruct (script _ NoClick now' _) as [s2 o]. cbn [fst] in *.
  split; [rewrite Huser; reflexivity|].
  unfold to_world. rewrite Hdb, Hheap, Hlp, Hlf. reflexivity.
Qed.

(** What a scenario computes and shows depends on the baseline alone. *)
Lemma scenario_by_baseline b w w' base f cost c :
  valid_form f = true ->
  last_formdata (w_session w) = Some base ->
  w_heap w !! base = Some (formdata f) ->
  last_prediction (w_session w) = Some cost ->
  to_ieee cost = Some c ->
  last_formdata (w_session w') = Some base ->
  w_heap w' !! base = Some (formdata f) ->
  last_prediction (w_session w') = Some cost ->
  exists evs,
    (forall e, fst (scenarios_tab scaler model b w) <> inl e) /\
    figures (fst (scenarios_tab scaler model b w'))
      = figures (fst (scenarios_tab scaler model b w)) /\
    w_log (snd (scenarios_tab scaler model b w)) = (w_log w ++ evs)%list /\
    w_log (snd (scenarios_tab scaler model b w')) = (w_log w' ++ evs)%list.
Proof.
  intros Hv Hb Hh Hp Hc Hb' Hh' Hp'.
  assert (Hcase : (b = quit_smoking /\ f_smoker f = false) \/
                  (b = quit_smoking -> f_smoker f = true)).
  { destruct b; try (right; discriminate).
    destruct (f_smoker f); [right|left]; auto. }
  destruct Hcase as [[-> Hs] | Hs].
  - assert (Hsm : formdata f !! "smoker" = Some (VBool false))
      by (rewrite formdata_smoker, Hs; reflexivity).
    rewrite (quit_smoking_no_change scaler model w base (formdata f)
               (VBool false) cost Hp Hb Hh Hsm eq_refl).
    rewrite (quit_smoking_no_change scaler model w' base (formdata f)
               (VBool false) cost Hp' Hb' Hh' Hsm eq_refl).
    eexists. cbn [fst snd w_log set_log figures].
    split; [discriminate|]. repeat split.
  - destruct (spec_transform_valid b f Hv) as (f' & feats & Ht & _ & Hf).
    rewrite (scenario_run scaler model b w base f cost c f' feats
               Hv Hb Hh Hp Hc Hs Ht Hf).
    rewrite (scenario_run scaler model b w' base f cost c f' feats
               Hv Hb' Hh' Hp' Hc Hs Ht Hf).
    eexists. cbn [fst snd w_log set_log set_heap figures new_pred change
                  pct_change].
    split; [discriminate|]. repeat split.
Qed.

(** X15 -- Scenarios do not build on one another: on a baseline left by a
    prediction, a scenario run after any other scenario ends normally with
    the same new cost, change and percent-change, and shows the same
    widgets, as when it is run first. *)
Theorem scenarios_do_not_compose a b w base f cost c :
  valid_form f = true ->
  last_formdata (w_session w) = Some base ->
  w_heap w !! base = Some (formdata f) ->
  last_prediction (w_session w) = Some cost ->
  to_ieee cost = Some c ->
  exists evs,
    (forall e, fst (scenarios_tab scaler model b w) <> inl e) /\
    figures (fst (scenarios_tab scaler model b
                    (snd (scenarios_tab scaler model a w))))
      = figures (fst (scenarios_tab scaler model b w)) /\
    w_log (snd (scenarios_tab scaler model b w)) = (w_log w ++ evs)%list /\
    w_log (snd (scenarios_tab scaler model b
                  (snd (scenarios_tab scaler model a w))))
      = (w_log (snd (scenarios_tab scaler model a w)) ++ evs)%list.
Proof.
  intros Hv Hb Hh Hp Hc.
  apply (scenario_by_baseline b w _ base f cost c Hv Hb Hh Hp Hc).
  all: assert (Hcase : (a = quit_smoking /\ f_smoker f = false) \/
                       (a = quit_smoking -> f_smoker f = true))
    by (destruct a; try (right; discriminate);
        destruct (f_smoker f); [right|left]; auto).
  all: destruct Hcase as [[-> Hs] | Hs].
  all: try (rewrite (quit_smoking_no_change scaler model w base (formdata f)
                       (VBool false) cost Hp Hb Hh);
            [auto | rewrite formdata_smoker, Hs; reflexivity | reflexivity]).
  all: destruct (spec_transform_valid a f Hv) as (f' & feats & Ht & _ & Hf);
    rewrite (scenario_run scaler model a w base f cost c f' feats
               Hv Hb Hh Hp Hc Hs Ht Hf);
    cbn [snd w_session w_heap set_log set_heap]; auto.
  apply heap_alloc_old. exact Hh.
Qed.

End Baselines.

Lemma logout_keeps_baseline_witness :
  a_user shared_session = Some "alice" /\
  to_world "bob"
    (fst (interact example_artifacts (LoginClick "bob" "hunter22") 50
            (fst (interact example_artifacts LogoutClick 40
                    shared_session))))
  = {| w_db := a_db shared_session; w_heap := a_heap shared_session;
       w_session :=
         {| username := "bob";
            last_prediction := a_last_prediction shared_session;
            last_formdata := a_last_formdata shared_session |};
       w_log := [] |}.
Proof.
  assert (H : a_user shared_session = Some "alice")
    by (vm_compute; reflexivity).
  split; [exact H|].
  refine (proj2 (proj2 (logout_keeps_baseline example_scaler example_model
                          40 50 "alice" "bob" "hunter22" shared_session
                          H _ _ _))).
  - discriminate.
  - discriminate.
  - vm_compute. reflexivity.
Defined.

Lemma scenarios_do_not_compose_witness :
  valid_form smoker_form = true /\
  exists evs,
    (forall e, fst (scenarios_tab example_scaler example_model lower_bmi
                      smoker_world) <> inl e) /\
    figures (fst (scenarios_tab example_scaler example_model lower_bmi
                    (snd (scenarios_tab example_scaler example_model
                            quit_smoking smoker_world))))
      = figures (fst (scenarios_tab example_scaler example_model lower_bmi
                        smoker_world)) /\
    w_log (snd (scenarios_tab example_scaler example_model lower_bmi
                  smoker_world)) = (w_log smoker_world ++ evs)%list /\
    w_log (snd (scenarios_tab example_scaler example_model lower_bmi
                  (snd (scenarios_tab example_scaler example_model
                          quit_smoking smoker_world))))
      = (w_log (snd (scenarios_tab example_scaler example_model
                       quit_smoking smoker_world)) ++ evs)%list.
Proof.
  split; [reflexivity|].
  apply (scenarios_do_not_compose example_scaler example_model quit_smoking
           lower_bmi smoker_world 0%nat smoker_form (VNp (Fin 23700))
           (Fin 23700)).
  - reflexivity.
  - reflexivity.
  - vm_compute; reflexivity.
  - vm_compute; reflexivity.
  - reflexivity.
Defined.

(** ** Predict Cost on any form *)

Lemma region_code_is_int r v :
  region_mapping !! r = Some v -> exists n, v = VInt n.
Proof.
  unfold region_mapping. intros H.
  repeat (apply lookup_insert_Some in H as [[_ <-]|[_ H]]; [eauto|]).
  apply lookup_singleton_Some in H as [_ <-]. eauto.
Qed.

Section PredictAny.

Variable scaler : list ieee -> list ieee.
Variable model : list ieee -> ieee.

#[local] Opaque Qminus Qplus Qmult Qdiv Qcompare Z.add Z.ltb Z.sub.

(** "Predict Cost" on any form: it raises at [region_mapping[region]], with
    nothing done, or runs to its end. *)
Lemma predict_cost_any now f w :
  match region_mapping !! f_region f with
  | None => predict_cost scaler model now f w = (inl KeyError, w)
  | Some code =>
      exists n,
        code = VInt n /\
        let feats :=
          [Fin (inject_Z (f_age f));
           Fin (inject_Z (if String.eqb (f_sex f) "female" then 0 else 1));
           Fin (f_bmi f); Fin (inject_Z (f_children f));
           Fin (inject_Z (if f_smoker f then 1 else 0));
           Fin (inject_Z n)] in
        let raw := model (scaler feats) in
        let prediction := if ieee_lt (Fin 0) raw then VNp raw else VInt 0 in
        predict_cost scaler model now f w =
          (inr tt,
           {| w_db :=
                save_prediction (w_db w) (username (w_session w)) (f_age f)
                  (f_sex f) (f_bmi f) (f_children f)
                  (if f_smoker f then 1 else 0) (f_region f) prediction now;
              w_heap := (w_heap w ++ [formdata f])%list;
              w_session :=
                {| username := username (w_session w);
                   last_prediction := Some prediction;
                   last_formdata := Some (length (w_heap w)) |};
              w_log :=
                (w_log w ++ [ModelCall (scaler feats);
                             ResultCard prediction])%list |})
  end.
Proof.
  destruct (region_mapping !! f_region f) as [code|] eqn:E.
  - destruct (region_code_is_int _ _ E) as (n & ->). exists n.
    split; [reflexivity|].
    destruct w as [db heap [user lp lf] log].
    destruct f as [age sex bmi children smoker region]. cbn in E.
    exec_unfold. cbn. rewrite E. cbn.
    destruct (String.eqb sex "female"), smoker; cbn;
      rewrite <- ?app_assoc; reflexivity.
  - destruct w as [db heap [user lp lf] log].
    destruct f as [age sex bmi children smoker region]. cbn in E.
    exec_unfold. cbn. rewrite E. reflexivity.
Qed.

End PredictAny.

Section PredictFacts.

Variable scaler : list ieee -> list ieee.
Variable model : list ieee -> ieee.


(** X17 -- "Predict Cost" replaces the baseline whatever the session held
    before: a scenario run next computes on the form just submitted and on
    the cost of its result card, the model's output clamped at zero. *)
Theorem predict_then_scenario now f b w :
  valid_form f = true ->
  (b = quit_smoking -> f_smoker f = true) ->
  exists feats cost c f' feats',
    spec_features f = Some feats /\
    py_max (VInt 0) (VNp (model (scaler feats))) = inr cost /\
    to_ieee cost = Some c /\
    spec_transform b f = Some f' /\
    spec_features f' = Some feats' /\
    figures (fst (scenarios_tab scaler model b
                    (snd (predict_cost scaler model now f w))))
    = Some (VNp (model (scaler feats')),
            VNp (delta b c (model (scaler feats'))),
            VNp (ieee_mul (ieee_div (delta b c (model (scaler feats'))) c)
                   (Fin 100))).
Proof.
  intros Hv Hs.
  destruct (spec_features_valid f Hv) as (rc & _ & Hf).
  destruct (spec_transform_valid b f Hv) as (f' & feats' & Ht & _ & Hf').
  rewrite (predict_cost_run scaler model now f w _ Hv Hf). cbn [snd].
  set (raw := model (scaler _)).
  eexists _, (if ieee_lt (Fin 0) raw then VNp raw else VInt 0),
    (if ieee_lt (Fin 0) raw then raw else Fin (inject_Z 0)), f', feats'.
  split; [exact Hf|]. split; [reflexivity|].
  split; [destruct (ieee_lt (Fin 0) raw); reflexivity|].
  split; [exact Ht|]. split; [exact Hf'|].
  erewrite (scenario_run scaler model b _ (length (w_heap w)) f _ _ f' feats'
              Hv); cbn [w_session w_heap last_formdata last_prediction];
    try reflexivity; auto.
  - apply heap_alloc_lookup.
  - destruct (ieee_lt (Fin 0) raw); reflexivity.
Qed.

(** X18 -- A scenario never asks the model about a profile the form could
    not have submitted: on a baseline within the widget ranges, the profile
    it evaluates is within them too (age at most 100, BMI at least 10), is
    no younger and no heavier than the baseline, and differs from it in at
    most the one entry of the scenario. *)
Theorem scenario_profile_in_range b w base f cost c :
  valid_form f = true ->
  last_formdata (w_session w) = Some base ->
  w_heap w !! base = Some (formdata f) ->
  last_prediction (w_session w) = Some cost ->
  to_ieee cost = Some c ->
  (b = quit_smoking -> f_smoker f = true) ->
  exists f' feats locals,
    valid_form f' = true /\
    spec_features f' = Some feats /\
    fst (scenarios_tab scaler model b w) = inr (Some locals) /\
    new_pred locals = VNp (model (scaler feats)) /\
    In (ModelCall (scaler feats))
       (w_log (snd (scenarios_tab scaler model b w))) /\
    f_age f <= f_age f' <= f_age f + 10 /\
    (f_bmi f' <= f_bmi f)%Q /\
    (b <> age_factor -> f_age f' = f_age f) /\
    (b <> lower_bmi -> f_bmi f' = f_bmi f) /\
    (b <> quit_smoking -> f_smoker f' = f_smoker f) /\
    (b <> change_region -> f_region f' = f_region f) /\
    f_sex f' = f_sex f /\
    f_children f' = f_children f.
Proof.
  intros Hv Hb Hh Hp Hc Hs.
  destruct (spec_transform_valid b f Hv) as (f' & feats & Ht & Hv' & Hf).
  rewrite (scenario_run scaler model b w base f cost c f' feats
             Hv Hb Hh Hp Hc Hs Ht Hf).
  exists f', feats. eexists.
  split; [exact Hv'|]. split; [exact Hf|]. split; [reflexivity|].
  split; [reflexivity|].
  split; [cbn [snd w_log set_log]; apply in_or_app; right; left;
          reflexivity|].
  destruct b; cbn in Ht.
  - inversion Ht; subst f'; cbn.
    repeat split; try lia; try lra; try congruence.
  - inversion Ht; subst f'; cbn.
    assert (Hq : ((if Qlt_b 10 (f_bmi f - 5) then f_bmi f - 5 else 10)
                  <= f_bmi f)%Q).
    { unfold valid_form in Hv.
      repeat (apply andb_prop in Hv as [Hv ?]).
      destruct (Qlt_b 10 (f_bmi f - 5)) eqn:E.
      - lra.
      - match goal with
        | H : negb (Qlt_b (f_bmi f) 10) = true |- _ =>
            apply negb_true_iff, Qlt_b_false in H; exact H
        end. }
    repeat split; try lia; try apply Hq; try congruence.
  - destruct (spec_next_region (f_region f)) as [r|]; [|discriminate].
    inversion Ht; subst f'; cbn.
    repeat split; try lia; try lra; try congruence.
  - inversion Ht; subst f'; cbn.
    assert (Ha : f_age f <= 100).
    { unfold valid_form in Hv.
      repeat (apply andb_prop in Hv as [Hv ?]).
      apply Z.leb_le. assumption. }
    repeat split; try lia; try lra; try congruence.
Qed.

End PredictFacts.

Lemma predict_then_scenario_witness :
  valid_form smoker_form = true /\
  exists feats cost c f' feats',
    spec_features smoker_form = Some feats /\
    py_max (VInt 0) (VNp (example_model (example_scaler feats))) = inr cost /\
    to_ieee cost = Some c /\
    spec_transform quit_smoking smoker_form = Some f' /\
    spec_features f' = Some feats' /\
    figures (fst (scenarios_tab example_scaler example_model quit_smoking
                    (snd (predict_cost example_scaler example_model 1000
                            smoker_form start_world))))
    = Some (VNp (example_model (example_scaler feats')),
            VNp (delta quit_smoking c
                   (example_model (example_scaler feats'))),
            VNp (ieee_mul
                   (ieee_div
                      (delta quit_smoking c
                         (example_model (example_scaler feats'))) c)
                   (Fin 100))).
Proof.
  split; [reflexivity|].
  apply (predict_then_scenario example_scaler example_model 1000 smoker_form
           quit_smoking start_world).
  - reflexivity.
  - reflexivity.
Defined.

Lemma scenario_profile_in_range_witness :
  valid_form smoker_form = true /\
  exists f' feats locals,
    valid_form f' = true /\
    spec_features f' = Some feats /\
    fst (scenarios_tab example_scaler example_model age_factor smoker_world)
      = inr (Some locals) /\
    new_pred locals = VNp (example_model (example_scaler feats)) /\
    In (ModelCall (example_scaler feats))
       (w_log (snd (scenarios_tab example_scaler example_model age_factor
                      smoker_world))) /\
    f_age smoker_form <= f_age f' <= f_age smoker_form + 10 /\
    (f_bmi f' <= f_bmi smoker_form)%Q /\
    (age_factor <> age_factor -> f_age f' = f_age smoker_form) /\
    (age_factor <> lower_bmi -> f_bmi f' = f_bmi smoker_form) /\
    (age_factor <> quit_smoking -> f_smoker f' = f_smoker smoker_form) /\
    (age_factor <> change_region -> f_region f' = f_region smoker_form) /\
    f_sex f' = f_sex smoker_form /\
    f_children f' = f_children smoker_form.
Proof.
  split; [reflexivity|].
  apply (scenario_profile_in_range example_scaler example_model age_factor
           smoker_world 0%nat smoker_form (VNp (Fin 23700)) (Fin 23700)).
  - reflexivity.
  - reflexivity.
  - vm_compute; reflexivity.
  - vm_compute; reflexivity.
  - reflexivity.
  - discriminate.
Defined.

(** ** What each button writes *)

Lemma kept_same c s s' :
  a_heap s' = a_heap s ->
  a_user s' = a_user s ->
  a_last_prediction s' = a_last_prediction s ->
  a_last_formdata s' = a_last_formdata s ->
  kept c s s'.
Proof.
  intros Hh Hu Hp Hf. unfold kept. rewrite Hh, Hu, Hp, Hf.
  repeat split; auto.
Qed.

Lemma kept_then c s s1 s2 :
  kept c s s1 ->
  a_heap s2 = a_heap s1 ->
  a_user s2 = a_user s1 ->
  a_last_prediction s2 = a_last_prediction s1 ->
  a_last_formdata s2 = a_last_formdata s1 ->
  kept c s s2.
Proof.
  intros H Hh Hu Hp Hf. unfold kept in *. rewrite Hh, Hu, Hp, Hf.
  exact H.
Qed.

Section Writes.

Variable artifacts : option ((list ieee -> list ieee) * (list ieee -> ieee)).

Lemma login_page_kept c now s :
  kept c s (fst (show_login_page c now s)).
Proof.
  destruct c; cbn [show_login_page fst]; try (apply kept_same; reflexivity).
  - unfold on_login.
    destruct (negb (String.eqb login_username "")
              && negb (String.eqb login_password ""));
      [|apply kept_same; reflexivity].
    destruct (verify_user (a_db s) login_username login_password);
      [|apply kept_same; reflexivity].
    unfold kept. cbn. repeat split; auto.
    intros H. exfalso. eapply H. reflexivity.
  - unfold on_signup.
    destruct (String.eqb signup_username "" || String.eqb signup_password "");
      [apply kept_same; reflexivity|].
    destruct (negb (String.eqb signup_password signup_password_confirm));
      [apply kept_same; reflexivity|].
    destruct (py_len signup_password <? 6)%nat;
      [apply kept_same; reflexivity|].
    destruct (create_user (a_db s) signup_username signup_password now)
      as [[|] db]; apply kept_same; reflexivity.
Qed.

Lemma tabs_kept scaler model c now u s :
  baseline_ok s ->
  kept c s (fst (tabs scaler model c now u s)).
Proof.
  intros Hb.
  assert (Hcase : (exists f, c = PredictClick f) \/
                  (exists b, c = ScenarioClick b) \/
                  ((forall f, c <> PredictClick f) /\
                   (forall b, c <> ScenarioClick b))).
  { destruct c; eauto; right; right; split; discriminate. }
  destruct Hcase as [(f & ->) | [(b & ->) | (Hnp & Hns)]].
  - unfold tabs, run_handler.
    pose proof (predict_cost_any scaler model now f (to_world u s)) as H.
    destruct (region_mapping !! f_region f) as [code|].
    + destruct H as (n & _ & H). cbv zeta in H. rewrite H.
      cbn [of_world to_world w_db w_heap w_session w_log username
           last_prediction last_formdata a_db a_heap a_user
           a_last_prediction a_last_formdata a_out].
      match goal with
      | |- context [history_tab ?d u] =>
          destruct (history_tab d u) as [rows [e|]]
      end; cbn [fst];
        unfold kept; cbn; repeat split; auto;
        try (exfalso;
             match goal with
             | Hne : forall g, PredictClick _ <> PredictClick g |- _ =>
                 eapply Hne; reflexivity
             end);
        intros l d; apply heap_grows.
    + rewrite H. cbn [fst]. apply kept_same; reflexivity.
  - destruct (tabs_scenario scaler model b now u s Hb)
      as (added & evs & ->).
    cbn [fst]. unfold kept. cbn. repeat split; auto.
    intros l d. apply heap_grows.
  - destruct (tabs_idle scaler model c now u s Hnp Hns) as (evs & ->).
    cbn [fst]. apply kept_same; reflexivity.
Qed.

Lemma script_kept c now s :
  baseline_ok s -> kept c s (fst (script artifacts c now s)).
Proof.
  intros Hb. unfold script.
  destruct (a_user s) as [u|] eqn:Eu; [|apply login_page_kept].
  assert (Hlogout :
            kept LogoutClick s
              (show (Shown (Success "Logged out successfully!"))
                 (set_user None s))).
  { unfold kept. cbn. repeat split; auto. intros _ H. contradiction. }
  destruct c; try exact Hlogout;
    (destruct artifacts as [[scaler model]|];
     [apply tabs_kept; exact Hb | apply kept_same; reflexivity]).
Qed.

Lemma interact_kept c now s :
  baseline_ok s -> kept c s (fst (interact artifacts c now s)).
Proof.
  intros Hb. unfold interact.
  pose proof (script_kept c now s Hb) as H.
  destruct (script artifacts c now s) as [s1 o]. cbn [fst] in H.
  destruct o; try exact H.
  destruct (script_no_click artifacts now s1) as (_ & Hh & Hu & Hp & Hf & _).
  apply (kept_then c s s1); auto.
Qed.

(** X19 -- Each button changes only what is its own in the session: in
    every state a session can reach, a press leaves the baseline
    ([last_prediction] and [last_formdata]) as it was unless it is Predict
    Cost, and the logged-in user unless it is Login or Logout; and no press
    changes a dictionary that exists.  So no scenario, however often it is
    run, and no login or logout alters the baseline. *)
Theorem session_by_button c now s :
  reachable artifacts s ->
  ((forall f, c <> PredictClick f) ->
   a_last_prediction (fst (interact artifacts c now s))
     = a_last_prediction s /\
   a_last_formdata (fst (interact artifacts c now s)) = a_last_formdata s) /\
  ((forall u p, c <> LoginClick u p) -> c <> LogoutClick ->
   a_user (fst (interact artifacts c now s)) = a_user s) /\
  (forall l d, a_heap s !! l = Some d ->
               a_heap (fst (interact artifacts c now s)) !! l = Some d).
Proof.
  intros Hr. apply interact_kept.
  apply (reachable_consistent artifacts s Hr).
Qed.

End Writes.

Lemma session_by_button_witness :
  reachable example_artifacts predicted /\
  a_last_prediction
    (fst (interact example_artifacts (ScenarioClick lower_bmi) 40 predicted))
  = a_last_prediction predicted.
Proof.
  split; [exact predicted_reachable|].
  refine (proj1 (proj1 (session_by_button example_artifacts
                          (ScenarioClick lower_bmi) 40 predicted
                          predicted_reachable) _)).
  discriminate.
Defined.

(** ** What a press adds *)

Ltac no_more_rows :=
  intros;
  repeat match goal with
         | H : False |- _ => destruct H
         | H : In _ [] |- _ => destruct H
         | H : In _ [_] |- _ => destruct H as [<-|[]]
         end.

Lemma grown_same c now s s' : a_db s' = a_db s -> grown c now s s'.
Proof.
  intros E. exists [], []. rewrite E, !app_nil_r. cbn.
  repeat split; auto; no_more_rows.
Qed.

Lemma grown_then c now s s1 s2 :
  grown c now s s1 -> a_db s2 = a_db s1 -> grown c now s s2.
Proof. intros H E. unfold grown in *. rewrite E. exact H. Qed.

Section Growth.

Variable artifacts : option ((list ieee -> list ieee) * (list ieee -> ieee)).

Lemma login_page_grown c now s :
  a_user s = None -> grown c now s (fst (show_login_page c now s)).
Proof.
  intros Hout.
  destruct c; cbn [show_login_page fst]; try (apply grown_same; reflexivity).
  - unfold on_login.
    destruct (negb (String.eqb login_username "")
              && negb (String.eqb login_password ""));
      [|apply grown_same; reflexivity].
    destruct (verify_user (a_db s) login_username login_password);
      apply grown_same; reflexivity.
  - unfold on_signup.
    destruct (String.eqb signup_username "" || String.eqb signup_password "");
      [apply grown_same; reflexivity|].
    destruct (String.eqb_spec signup_password signup_password_confirm)
      as [<-|_]; [|apply grown_same; reflexivity].
    cbn [negb].
    destruct (py_len signup_password <? 6)%nat eqn:El;
      [apply grown_same; reflexivity|].
    apply Nat.ltb_ge in El.
    destruct (create_user (a_db s) signup_username signup_password now)
      as [created db] eqn:Ecr.
    destruct created; cbn [fst].
    + destruct (create_user_true _ _ _ _ _ Ecr)
        as (_ & row & Hu & Hp & Hn & Hh & Ht).
      exists [row], []. cbn [show set_database a_db].
      rewrite Hu, Hp, app_nil_r. cbn [length].
      repeat (split; [solve [auto | no_more_rows]|]).
      split; no_more_rows.
      split; [exact Hout|]. split; [exact Ht|].
      exists signup_password. rewrite Hn. auto.
    + apply grown_same. cbn.
      unfold create_user, insert_user in Ecr.
      destruct (username_taken (a_db s) signup_username);
        inversion Ecr; reflexivity.
Qed.

Lemma tabs_grown scaler model c now u s :
  a_user s = Some u ->
  baseline_ok s ->
  grown c now s (fst (tabs scaler model c now u s)).
Proof.
  intros Hin Hb.
  assert (Hcase : (exists f, c = PredictClick f) \/
                  (exists b, c = ScenarioClick b) \/
                  ((forall f, c <> PredictClick f) /\
                   (forall b, c <> ScenarioClick b))).
  { destruct c; eauto; right; right; split; discriminate. }
  destruct Hcase as [(f & ->) | [(b & ->) | (Hnp & Hns)]].
  - unfold tabs, run_handler.
    pose proof (predict_cost_any scaler model now f (to_world u s)) as H.
    destruct (region_mapping !! f_region f) as [code|].
    + destruct H as (n & _ & H). cbv zeta in H. rewrite H.
      cbn [of_world to_world w_db w_heap w_session w_log username
           last_prediction last_formdata a_db a_heap a_user
           a_last_prediction a_last_formdata a_out].
      match goal with
      | |- context [history_tab ?d u] =>
          destruct (history_tab d u) as [rows [e|]]
      end; cbn [fst];
        (eexists [], [_]; cbn [a_db save_prediction users predictions];
         rewrite app_nil_r; cbn [length];
         repeat (split; [solve [auto | no_more_rows]|]);
         no_more_rows; cbn;
         split; [exact Hin|]; split; [reflexivity|];
         exists f; repeat split; reflexivity).
    + rewrite H. cbn [fst]. apply grown_same; reflexivity.
  - destruct (tabs_scenario scaler model b now u s Hb)
      as (added & evs & ->).
    cbn [fst]. apply grown_same; reflexivity.
  - destruct (tabs_idle scaler model c now u s Hnp Hns) as (evs & ->).
    cbn [fst]. apply grown_same; reflexivity.
Qed.

Lemma script_grown c now s :
  baseline_ok s -> grown c now s (fst (script artifacts c now s)).
Proof.
  intros Hb. unfold script.
  destruct (a_user s) as [u|] eqn:Eu;
    [|apply login_page_grown; exact Eu].
  destruct c; try (apply grown_same; reflexivity);
    (destruct artifacts as [[scaler model]|];
     [apply tabs_grown; auto | apply grown_same; reflexivity]).
Qed.

Lemma interact_grown c now s :
  baseline_ok s -> grown c now s (fst (interact artifacts c now s)).
Proof.
  intros Hb. unfold interact.
  pose proof (script_grown c now s Hb) as H.
  destruct (script artifacts c now s) as [s1 o]. cbn [fst] in H.
  destruct o; try exact H.
  destruct (script_no_click artifacts now s1) as (Hd & _).
  apply (grown_then c now s s1); auto.
Qed.

(** X20 -- The tables only grow, and only as the press says: in every state
    a session can reach, a press keeps every account and every record as
    they are and in their order, and adds at most one account and at most
    one record.  An account is added only by Sign Up from the login page,
    under the name typed, with the hash of a password of at least six
    characters that equals its confirmation, never the password itself; a
    record only by Predict Cost, under the name of the user logged in, with
    the values of the form and the time of the press. *)
Theorem store_only_grows c now s :
  reachable artifacts s ->
  exists new_users new_records,
    users (a_db (fst (interact artifacts c now s)))
      = (users (a_db s) ++ new_users)%list /\
    predictions (a_db (fst (interact artifacts c now s)))
      = (predictions (a_db s) ++ new_records)%list /\
    (length new_users <= 1)%nat /\
    (length new_records <= 1)%nat /\
    (forall r, In r new_users ->
       a_user s = None /\
       u_created_at r = now /\
       exists p, c = SignupClick (u_username r) p p /\
                 u_password r = hash_password p /\
                 (6 <= py_len p)%nat) /\
    (forall r, In r new_records ->
       a_user s = Some (p_username r) /\
       p_created_at r = now /\
       exists f, c = PredictClick f /\
                 p_age r = f_age f /\ p_sex r = f_sex f /\
                 p_bmi r = f_bmi f /\ p_children r = f_children f /\
                 p_smoker r = (if f_smoker f then 1 else 0) /\
                 p_region r = f_region f).
Proof.
  intros Hr. apply interact_grown.
  apply (reachable_consistent artifacts s Hr).
Qed.

End Growth.

Lemma store_only_grows_witness :
  reachable example_artifacts logged_in /\
  exists new_users new_records,
    users (a_db predicted) = (users (a_db logged_in) ++ new_users)%list /\
    predictions (a_db predicted)
      = (predictions (a_db logged_in) ++ new_records)%list /\
    (length new_users <= 1)%nat /\
    (length new_records <= 1)%nat.
Proof.
  split; [exact logged_in_reachable|].
  destruct (store_only_grows example_artifacts (PredictClick smoker_form) 30
              logged_in logged_in_reachable)
    as (nu & np & H1 & H2 & H3 & H4 & _).
  exists nu, np. auto.
Defined.
